(** * hid-tminit: Thrustmaster wheel initialisation driver

    A shallow embedding of [tminit.c] and [tminit.h]: the table of known
    wheels, the layout of the response to request 73, the two completion
    handlers, the interrupt sequence and the probe function, followed by
    the properties of the identification and mode-switch handshake. *)

From Equations Require Import Equations.
From Stdlib Require Import ZArith List Bool Arith Lia.
From Stdlib.Strings Require Import Byte String.
Import ListNotations.
Local Open Scope Z_scope.

(** ** Integers and byte order *)

(** A [uint8_t] is a [byte]; wider integers are [Z] with their range
    written out where it matters. *)
Definition u8 (b : byte) : Z := Z.of_N (Byte.to_N b).

Inductive endianness := LittleEndian | BigEndian.

(** swab16: exchange the two bytes of a 16-bit value. *)
Definition swab16 (x : Z) : Z :=
  Z.lor (Z.shiftl (Z.land x 255) 8) (Z.land (Z.shiftr x 8) 255).

(** cpu_to_le16 / le16_to_cpu on a host of byte order [e]. *)
Definition cpu_to_le16 (e : endianness) (x : Z) : Z :=
  match e with LittleEndian => x | BigEndian => swab16 x end.

Definition le16_to_cpu (e : endianness) (x : Z) : Z :=
  match e with LittleEndian => x | BigEndian => swab16 x end.

(** The value a host of byte order [e] loads from two consecutive bytes. *)
Definition load16 (e : endianness) (b0 b1 : byte) : Z :=
  match e with
  | LittleEndian => u8 b0 + 256 * u8 b1
  | BigEndian => 256 * u8 b0 + u8 b1
  end.

(** The two bytes (in memory and wire order) of a 16-bit field holding [x]
    on a host of byte order [e]. *)
Definition store16 (e : endianness) (x : Z) : Z * Z :=
  match e with
  | LittleEndian => (Z.land x 255, Z.land (Z.shiftr x 8) 255)
  | BigEndian => (Z.land (Z.shiftr x 8) 255, Z.land x 255)
  end.

(** ** The table of known wheels *)

Record tm_wheel_info := {
  model : byte;
  attachment : byte;
  switch_value : Z;
  wheel_name : string
}.

Definition tm_wheels_infos : list tm_wheel_info := [
  {| model := x00; attachment := x02; switch_value := 0x0002;
     wheel_name := "Thrustmaster T500RS" |};
  {| model := x02; attachment := x00; switch_value := 0x0005;
     wheel_name := "Thrustmaster T300RS (Missing Attachment)" |};
  {| model := x02; attachment := x03; switch_value := 0x0005;
     wheel_name := "Thrustmaster T300RS (F1 attachment)" |};
  {| model := x02; attachment := x04; switch_value := 0x0005;
     wheel_name := "Thrustmaster T300 Ferrari Alcantara Edition" |};
  {| model := x02; attachment := x06; switch_value := 0x0005;
     wheel_name := "Thrustmaster T300RS" |};
  {| model := x02; attachment := x09; switch_value := 0x0005;
     wheel_name := "Thrustmaster T300RS (Open Wheel Attachment)" |};
  {| model := x03; attachment := x06; switch_value := 0x0006;
     wheel_name := "Thrustmaster T150RS" |};
  {| model := x00; attachment := x09; switch_value := 0x000b;
     wheel_name := "Thrustmaster T128" |}
].

Definition tm_wheels_infos_length : nat := 8.

(** ** The two search loops of thrustmaster_model_handler

    A pointer into the table is the index of the entry it points to, NULL
    is [None]. The loops are stated over any table [tbl] of declared
    length [len]; the driver runs them on [tm_wheels_infos]. *)

Module Lookup.
Section Loops.
Variable tbl : list tm_wheel_info.
Variable len : nat.
Variable mdl att : byte.

Definition null_info : tm_wheel_info :=
  {| model := x00; attachment := x00; switch_value := 0;
     wheel_name := EmptyString |}.

(** [tbl[i]] *)
Definition at_index (i : nat) : tm_wheel_info := nth i tbl null_info.

Definition is_null (twi : option nat) : bool :=
  match twi with None => true | Some _ => false end.

(** for (i = 0; i < len && !twi; i++)
      if (tbl[i].model == model) twi = tbl + i;
    started at [i] with the current [twi]; returns the final [i] and
    [twi]. *)
Equations? find_model (i : nat) (twi : option nat) : nat * option nat
  by wf (len - i)%nat lt :=
  find_model i twi
    with Sumbool.sumbool_of_bool ((i <? len)%nat && is_null twi) => {
    | left _ =>
        find_model (S i)
          (if Byte.eqb (model (at_index i)) mdl then Some i else twi);
    | right _ => (i, twi) }.
Proof.
  apply andb_prop in e. destruct e as [e _].
  apply Nat.ltb_lt in e. lia.
Qed.

(** for (attachment_found = ...; !attachment_found && i < len
                                  && tbl[i].model == model; i++)
      if (tbl[i].attachment == attachment) {
        twi = tbl + i; attachment_found = 1; }
    started at [i] with the current [twi] and [attachment_found];
    returns the final [twi] and [attachment_found]. *)
Equations? find_attachment (i : nat) (twi : nat) (attachment_found : bool)
  : nat * bool by wf (len - i)%nat lt :=
  find_attachment i twi attachment_found
    with Sumbool.sumbool_of_bool
           (negb attachment_found && (i <? len)%nat
            && Byte.eqb (model (at_index i)) mdl) => {
    | left _ =>
        if Byte.eqb (attachment (at_index i)) att
        then find_attachment (S i) i true
        else find_attachment (S i) twi attachment_found;
    | right _ => (twi, attachment_found) }.
Proof.
  all: apply andb_prop in e; destruct e as [e _];
    apply andb_prop in e; destruct e as [_ e];
    apply Nat.ltb_lt in e; lia.
Qed.

(** Lines 219-229 together: [None] when the first loop leaves [twi]
    NULL, otherwise the final [twi] and [attachment_found]. *)
Definition resolve : option (nat * bool) :=
  match find_model 0 None with
  | (i, Some first) =>
      Some (find_attachment i first
              (Byte.eqb (attachment (at_index first)) att))
  | (_, None) => None
  end.
End Loops.
End Lookup.

(** The search as the driver runs it, on the table of known wheels. *)
Definition resolve (mdl att : byte) : option (nat * bool) :=
  Lookup.resolve tm_wheels_infos tm_wheels_infos_length mdl att.

Definition entry (i : nat) : tm_wheel_info :=
  Lookup.at_index tm_wheels_infos i.

(** ** The response to request 73 (struct tm_wheel_response)

    Both structs are __packed: a field sits at the sum of the sizes of the
    fields before it. *)

Inductive ctype := uint8_t | uint16_t.

Definition sizeof (t : ctype) : nat :=
  match t with uint8_t => 1 | uint16_t => 2 end.

Definition packed_struct := list (string * ctype).

Fixpoint struct_size (s : packed_struct) : nat :=
  match s with
  | [] => 0
  | (_, t) :: rest => sizeof t + struct_size rest
  end.

Fixpoint offsetof (s : packed_struct) (field : string) : nat :=
  match s with
  | [] => 0
  | (name, t) :: rest =>
      if String.eqb name field then 0 else sizeof t + offsetof rest field
  end.

Definition data_a : packed_struct := [
  ("field0", uint16_t); ("field1", uint16_t);
  ("attachment", uint8_t); ("model", uint8_t);
  ("field2", uint16_t); ("field3", uint16_t);
  ("field4", uint16_t); ("field5", uint16_t) ]%string.

Definition data_b : packed_struct := [
  ("field0", uint16_t); ("field1", uint16_t);
  ("attachment", uint8_t); ("model", uint8_t) ]%string.

(** [type] is the first member, the union [data] follows it. *)
Definition type_offset : nat := 0.
Definition data_offset : nat := sizeof uint16_t.

Definition sizeof_tm_wheel_response : nat :=
  data_offset + Nat.max (struct_size data_a) (struct_size data_b).

(** The response buffer is a sequence of bytes; a read past its end does
    not happen on a buffer of [sizeof_tm_wheel_response] bytes. *)
Definition read_u8 (buf : list byte) (off : nat) : byte := nth off buf x00.

Definition read_u16 (e : endianness) (buf : list byte) (off : nat) : Z :=
  load16 e (read_u8 buf off) (read_u8 buf (S off)).

(** response->type, response->data.a.<field>, response->data.b.<field> *)
Definition response_type (e : endianness) (buf : list byte) : Z :=
  read_u16 e buf type_offset.

Definition data_field (layout : packed_struct) (field : string)
  (buf : list byte) : byte :=
  read_u8 buf (data_offset + offsetof layout field).

(** Lines 206-217 of thrustmaster_model_handler: the (model, attachment)
    pair read from the response, or the type that was not recognised. *)
Definition read_model_attachment (e : endianness) (buf : list byte)
  : Z + byte * byte :=
  if response_type e buf =? cpu_to_le16 e 0x49 then
    inr (data_field data_a "model" buf, data_field data_a "attachment" buf)
  else if response_type e buf =? cpu_to_le16 e 0x47 then
    inr (data_field data_b "model" buf, data_field data_b "attachment" buf)
  else inl (response_type e buf).

(** kzalloc(sizeof(struct tm_wheel_response)) *)
Definition zeroed_response : list byte := repeat x00 sizeof_tm_wheel_response.

(** What the host controller leaves in the buffer of a control-in URB:
    the bytes the device sent, at most the buffer's length, over the old
    contents. *)
Definition receive (data buf : list byte) : list byte :=
  firstn (List.length buf) (data ++ skipn (List.length data) buf).

(** ** Interrupt packets sent before the T300RS is queried *)

Definition setup_0 : list byte := [x42; x01; x00; x00; x00; x00; x00; x00; x00].
Definition setup_1 : list byte := [x0a; x04; x90; x03; x00; x00; x00; x00].
Definition setup_2 : list byte := [x0a; x04; x00; x0c; x00; x00; x00; x00].
Definition setup_3 : list byte := [x0a; x04; x12; x10; x00; x00; x00; x00].
Definition setup_4 : list byte := [x0a; x04; x00; x06; x00; x00; x00; x00].

Definition setup_arr : list (list byte) :=
  [setup_0; setup_1; setup_2; setup_3; setup_4].

Definition setup_arr_sizes : list nat :=
  [List.length setup_0; List.length setup_1; List.length setup_2;
   List.length setup_3; List.length setup_4].

(** ** Control requests and URBs *)

Record usb_ctrlrequest := {
  bRequestType : Z;
  bRequest : Z;
  wValue : Z;
  wIndex : Z;
  wLength : Z
}.

Definition model_request (e : endianness) : usb_ctrlrequest :=
  {| bRequestType := 0xc1; bRequest := 73; wValue := 0; wIndex := 0;
     wLength := cpu_to_le16 e 0x0010 |}.

Definition change_request : usb_ctrlrequest :=
  {| bRequestType := 0x41; bRequest := 83; wValue := 0; wIndex := 0;
     wLength := 0 |}.

Definition set_wValue (v : Z) (r : usb_ctrlrequest) : usb_ctrlrequest :=
  {| bRequestType := bRequestType r; bRequest := bRequest r; wValue := v;
     wIndex := wIndex r; wLength := wLength r |}.

Inductive pipe := usb_rcvctrlpipe_0 | usb_sndctrlpipe_0.

(** The request a URB's setup packet points to, and its completion
    function. *)
Inductive setup_ref := the_model_request | the_change_request.
Inductive completion := model_handler | change_handler.

Record urb := {
  urb_pipe : pipe;
  setup_packet : setup_ref;
  transfer_buffer_length : nat;
  complete : completion
}.

(** The URB as usb_fill_control_urb leaves it in thrustmaster_probe. *)
Definition model_urb : urb :=
  {| urb_pipe := usb_rcvctrlpipe_0; setup_packet := the_model_request;
     transfer_buffer_length := sizeof_tm_wheel_response;
     complete := model_handler |}.

(** The URB as usb_fill_control_urb leaves it in
    thrustmaster_submit_change: no response is expected. *)
Definition change_urb : urb :=
  {| urb_pipe := usb_sndctrlpipe_0; setup_packet := the_change_request;
     transfer_buffer_length := 0; complete := change_handler |}.

(** ** Errno values (asm-generic) *)

Definition ENOMEM : Z := 12.
Definition EINVAL : Z := 22.
Definition EPIPE : Z := 32.
Definition EPROTO : Z := 71.

(** ** What the driver does to the outside world *)

Inductive resource :=
| res_usb_dev | res_usb_intf | res_urb | res_model_request | res_response
| res_change_request | res_send_buf.

Inductive level := dev_err | dev_warn | dev_info.

Inductive message :=
| failed_allocating_send_buffer
| wrong_number_of_endpoints
| setup_data_not_sent
| wheel_initialized
| change_urb_failed (status : Z)
| change_submit_error (ret : Z)
| model_urb_failed (status : Z)
| unknown_packet_type (type : Z)
| wheel_is (mdl att : byte) (name : string) (attachment_found : bool)
| unknown_model (mdl : byte)
| model_submit_error (ret : Z).

Inductive event :=
| Log (l : level) (m : message)
| Get (r : resource)
| Put (r : resource)
| InterruptMsg (endpoint : Z) (data : list byte) (ret : Z)
| SubmitUrb (u : urb) (setup : option usb_ctrlrequest) (ret : Z).

(** The device, the bus and the allocator, as the driver sees them. *)
Record usb_env := {
  host : endianness;
  idProduct : byte * byte;          (* descriptor.idProduct, an __le16 *)
  bNumEndpoints : Z;
  bEndpointAddress : Z;             (* of endpoint[1] *)
  alloc_ok : resource -> bool;
  interrupt_msg_ret : nat -> Z;     (* of the n-th usb_interrupt_msg *)
  submit_urb_ret : nat -> Z;        (* of the n-th usb_submit_urb *)
  query_status : Z;                 (* urb->status in the model handler *)
  query_reply : list byte;          (* what the wheel answers to request 73 *)
  change_status : Z                 (* urb->status in the change handler *)
}.

(** struct tm_wheel; a NULL pointer is [None]. *)
Record tm_wheel := {
  tw_interface : bool;
  tw_urb : option urb;
  tw_model_request : option usb_ctrlrequest;
  tw_response : list byte;
  tw_change_request : option usb_ctrlrequest
}.

Record state := {
  wheel : tm_wheel;
  trace : list event;
  submitted : nat;                  (* calls of usb_submit_urb so far *)
  in_flight : option urb            (* the URB awaiting its completion *)
}.

(** A tm_wheel fresh from kzalloc. *)
Definition zeroed_wheel : tm_wheel :=
  {| tw_interface := false; tw_urb := None; tw_model_request := None;
     tw_response := []; tw_change_request := None |}.

Definition initial_state : state :=
  {| wheel := zeroed_wheel; trace := []; submitted := 0; in_flight := None |}.

(** ** A state monad for the driver's functions *)

Definition M (A : Type) : Type := state -> A * state.

Definition ret {A : Type} (a : A) : M A := fun s => (a, s).

Definition bind {A B : Type} (c : M A) (k : A -> M B) : M B :=
  fun s => let (a, s') := c s in k a s'.

Declare Scope drv_scope.
Delimit Scope drv_scope with drv.
Notation "x <- c ;; k" := (bind c (fun x => k))
  (at level 61, c at next level, right associativity) : drv_scope.
Notation "c ;; k" := (bind c (fun _ => k))
  (at level 61, right associativity) : drv_scope.
Local Open Scope drv_scope.

Definition emit (ev : event) : M unit :=
  fun s => (tt, {| wheel := wheel s; trace := trace s ++ [ev];
                   submitted := submitted s; in_flight := in_flight s |}).

Definition log (l : level) (m : message) : M unit := emit (Log l m).

Definition get_wheel : M tm_wheel := fun s => (wheel s, s).

Definition update_wheel (f : tm_wheel -> tm_wheel) : M unit :=
  fun s => (tt, {| wheel := f (wheel s); trace := trace s;
                   submitted := submitted s; in_flight := in_flight s |}).

Definition take_in_flight : M (option urb) :=
  fun s => (in_flight s, {| wheel := wheel s; trace := trace s;
                            submitted := submitted s; in_flight := None |}).

Definition with_interface (b : bool) (w : tm_wheel) : tm_wheel :=
  {| tw_interface := b; tw_urb := tw_urb w;
     tw_model_request := tw_model_request w; tw_response := tw_response w;
     tw_change_request := tw_change_request w |}.

Definition with_urb (u : option urb) (w : tm_wheel) : tm_wheel :=
  {| tw_interface := tw_interface w; tw_urb := u;
     tw_model_request := tw_model_request w; tw_response := tw_response w;
     tw_change_request := tw_change_request w |}.

Definition with_model_request (r : option usb_ctrlrequest) (w : tm_wheel)
  : tm_wheel :=
  {| tw_interface := tw_interface w; tw_urb := tw_urb w;
     tw_model_request := r; tw_response := tw_response w;
     tw_change_request := tw_change_request w |}.

Definition with_response (buf : list byte) (w : tm_wheel) : tm_wheel :=
  {| tw_interface := tw_interface w; tw_urb := tw_urb w;
     tw_model_request := tw_model_request w; tw_response := buf;
     tw_change_request := tw_change_request w |}.

Definition with_change_request (r : option usb_ctrlrequest) (w : tm_wheel)
  : tm_wheel :=
  {| tw_interface := tw_interface w; tw_urb := tw_urb w;
     tw_model_request := tw_model_request w; tw_response := tw_response w;
     tw_change_request := r |}.

(** The request a URB's setup packet points to, as it is now. *)
Definition setup_of (w : tm_wheel) (u : urb) : option usb_ctrlrequest :=
  match setup_packet u with
  | the_model_request => tw_model_request w
  | the_change_request => tw_change_request w
  end.

(** ** The driver *)

Section Driver.
Variable env : usb_env.

Definition usb_fill_control_urb (u : urb) : M unit :=
  update_wheel (with_urb (Some u)).

(** usb_submit_urb(tm_wheel->urb): refused with -EINVAL when the URB has
    no completion function, else whatever the bus answers; a URB the bus
    accepted is in flight until its completion function is called. *)
Definition usb_submit_urb : M Z :=
  fun s =>
    match tw_urb (wheel s) with
    | None => (- EINVAL, s)
    | Some u =>
        let r := submit_urb_ret env (submitted s) in
        (r, {| wheel := wheel s;
               trace := trace s ++ [SubmitUrb u (setup_of (wheel s) u) r];
               submitted := S (submitted s);
               in_flight := if r =? 0 then Some u else in_flight s |})
    end.

(** usb_put_intf(tm_wheel->interface); nothing happens on NULL. *)
Definition usb_put_intf : M unit :=
  w <- get_wheel;;
  if tw_interface w then emit (Put res_usb_intf) else ret tt.

(** The body of the for loop of thrustmaster_interrupts from index [i],
    with [n] iterations left; [false] when the function returned from
    inside the loop. [send_buf] holds exactly setup_arr[i] in its first
    setup_arr_sizes[i] bytes when it is sent. *)
Fixpoint interrupts_loop (n i : nat) : M bool :=
  match n with
  | O => ret true
  | S n' =>
      let data := firstn (nth i setup_arr_sizes O) (nth i setup_arr []) in
      let r := interrupt_msg_ret env i in
      emit (InterruptMsg (bEndpointAddress env) data r);;
      if negb (r =? 0) then
        log dev_err setup_data_not_sent;;
        emit (Put res_send_buf);;
        ret false
      else interrupts_loop n' (S i)
  end.

Definition thrustmaster_interrupts : M unit :=
  if negb (alloc_ok env res_send_buf) then
    log dev_err failed_allocating_send_buffer
  else
    emit (Get res_send_buf);;
    if bNumEndpoints env <? 2 then
      emit (Put res_send_buf);;
      log dev_err wrong_number_of_endpoints
    else
      finished <- interrupts_loop (List.length setup_arr) 0;;
      if finished then emit (Put res_send_buf) else ret tt.

Definition thrustmaster_change_handler (status : Z) : M unit :=
  if (status =? 0) || (status =? - EPROTO) || (status =? - EPIPE) then
    log dev_info wheel_initialized
  else
    log dev_warn (change_urb_failed status).

Definition thrustmaster_submit_change (switch_value : Z) : M Z :=
  update_wheel (fun w =>
    with_change_request
      (option_map (set_wValue (cpu_to_le16 (host env) switch_value))
                  (tw_change_request w)) w);;
  usb_fill_control_urb change_urb;;
  r <- usb_submit_urb;;
  (if negb (r =? 0) then log dev_err (change_submit_error r) else ret tt);;
  ret r.

Definition thrustmaster_model_handler (status : Z) : M unit :=
  if negb (status =? 0) then
    log dev_err (model_urb_failed status)
  else
    w <- get_wheel;;
    match read_model_attachment (host env) (tw_response w) with
    | inl type => log dev_err (unknown_packet_type type)
    | inr (mdl, att) =>
        match resolve mdl att with
        | Some (twi, attachment_found) =>
            log dev_info
              (wheel_is mdl att (wheel_name (entry twi)) attachment_found);;
            _ <- thrustmaster_submit_change (switch_value (entry twi));;
            ret tt
        | None => log dev_err (unknown_model mdl)
        end
    end.

(** The labels at the end of thrustmaster_probe. *)
Definition error2 (r : Z) : M Z := emit (Put res_usb_dev);; ret r.
Definition error3 (r : Z) : M Z := emit (Put res_urb);; error2 r.
Definition error4 (r : Z) : M Z := emit (Put res_model_request);; error3 r.
Definition error5 (r : Z) : M Z :=
  emit (Put res_response);; usb_put_intf;; error4 r.
Definition error6 (r : Z) : M Z := emit (Put res_change_request);; error5 r.

Definition thrustmaster_probe : M Z :=
  emit (Get res_usb_dev);;
  if negb (alloc_ok env res_urb) then error2 (- ENOMEM) else
  emit (Get res_urb);;
  if negb (alloc_ok env res_model_request) then error3 (- ENOMEM) else
  emit (Get res_model_request);;
  update_wheel (with_model_request (Some (model_request (host env))));;
  if negb (alloc_ok env res_response) then error4 (- ENOMEM) else
  emit (Get res_response);;
  update_wheel (with_response zeroed_response);;
  if negb (alloc_ok env res_change_request) then error5 (- ENOMEM) else
  emit (Get res_change_request);;
  update_wheel (with_change_request (Some change_request));;
  emit (Get res_usb_intf);;
  update_wheel (with_interface true);;
  if le16_to_cpu (host env)
       (load16 (host env) (fst (idProduct env)) (snd (idProduct env)))
     =? 0xb69c
  then
    r <- thrustmaster_submit_change 0x000b;;
    if negb (r =? 0) then error6 r else ret r
  else
    thrustmaster_interrupts;;
    usb_fill_control_urb model_urb;;
    r <- usb_submit_urb;;
    if negb (r =? 0) then
      log dev_err (model_submit_error r);;
      error6 r
    else ret r.

(** The USB core calling the completion function of a URB: for the model
    request the wheel's answer is in the response buffer by then. *)
Definition complete_urb (u : urb) : M unit :=
  match complete u with
  | model_handler =>
      update_wheel (fun w =>
        with_response (receive (query_reply env) (tw_response w)) w);;
      thrustmaster_model_handler (query_status env)
  | change_handler =>
      thrustmaster_change_handler (change_status env)
  end.

(** Completions are delivered as long as a URB is in flight, at most
    [fuel] of them. *)
Fixpoint completions (fuel : nat) : M unit :=
  match fuel with
  | O => ret tt
  | S fuel' =>
      pending <- take_in_flight;;
      match pending with
      | None => ret tt
      | Some u => complete_urb u;; completions fuel'
      end
  end.

(** One device from attach until nothing is left in flight. *)
Definition session (fuel : nat) : M Z :=
  r <- thrustmaster_probe;;
  completions fuel;;
  ret r.

End Driver.

(** ** Observations on a trace *)

Definition is_query (ev : event) : bool :=
  match ev with
  | SubmitUrb u _ _ =>
      match complete u with model_handler => true | _ => false end
  | _ => false
  end.

Definition is_change (ev : event) : bool :=
  match ev with
  | SubmitUrb u _ _ =>
      match complete u with change_handler => true | _ => false end
  | _ => false
  end.

Definition is_interrupt (ev : event) : bool :=
  match ev with InterruptMsg _ _ _ => true | _ => false end.

Definition is_log (ev : event) : bool :=
  match ev with Log _ _ => true | _ => false end.

(** The messages that only thrustmaster_model_handler logs. *)
Definition from_model_handler (ev : event) : bool :=
  match ev with
  | Log _ (model_urb_failed _) | Log _ (unknown_packet_type _)
  | Log _ (wheel_is _ _ _ _) | Log _ (unknown_model _) => true
  | _ => false
  end.

(** What goes out on the bus, in order. *)
Definition bus_traffic (t : list event) : list event :=
  filter (fun ev => is_query ev || is_change ev || is_interrupt ev) t.

(** The packets handed to usb_interrupt_msg, in order. *)
Definition interrupt_packets (t : list event) : list (list byte) :=
  flat_map (fun ev => match ev with
                      | InterruptMsg _ data _ => [data]
                      | _ => []
                      end) t.

(** The wValue bytes, in wire order, of each submitted change request. *)
Definition switch_values_on_wire (e : endianness) (t : list event)
  : list (Z * Z) :=
  flat_map (fun ev => match ev with
                      | SubmitUrb u (Some rq) _ =>
                          match complete u with
                          | change_handler => [store16 e (wValue rq)]
                          | _ => []
                          end
                      | _ => []
                      end) t.

(** ** The search, in the words of its description

    The first entry of a model is the candidate; the run is the candidate
    and the entries after it for as long as they have the same model. *)

Definition has_model (mdl : byte) (e : tm_wheel_info) : bool :=
  Byte.eqb (model e) mdl.

Definition has_attachment (att : byte) (e : tm_wheel_info) : bool :=
  Byte.eqb (attachment e) att.

Fixpoint index_of (p : tm_wheel_info -> bool) (l : list tm_wheel_info)
  : option nat :=
  match l with
  | [] => None
  | e :: rest => if p e then Some O else option_map S (index_of p rest)
  end.

Fixpoint take_while (p : tm_wheel_info -> bool) (l : list tm_wheel_info)
  : list tm_wheel_info :=
  match l with
  | [] => []
  | e :: rest => if p e then e :: take_while p rest else []
  end.

(** Index of the first entry of [tbl] with model [mdl]. *)
Definition candidate (tbl : list tm_wheel_info) (mdl : byte) : option nat :=
  index_of (has_model mdl) tbl.

(** The contiguous run of entries of model [mdl] that starts at index [k]. *)
Definition run_from (tbl : list tm_wheel_info) (mdl : byte) (k : nat)
  : list tm_wheel_info :=
  take_while (has_model mdl) (skipn k tbl).

(** Scan for the candidate; keep it when its attachment matches, else take
    the first entry with the attachment in the rest of its run, else fall
    back on the candidate. *)
Definition resolve_described (tbl : list tm_wheel_info) (mdl att : byte)
  : option (nat * bool) :=
  match candidate tbl mdl with
  | None => None
  | Some k =>
      match index_of (has_attachment att) (run_from tbl mdl k) with
      | Some j => Some ((k + j)%nat, true)
      | None => Some (k, false)
      end
  end.

(** Entries of equal model lie next to each other. *)
Definition contiguous_models (tbl : list tm_wheel_info) : Prop :=
  forall i j k : nat,
    (i <= k)%nat -> (k <= j)%nat -> (j < List.length tbl)%nat ->
    model (nth i tbl Lookup.null_info) = model (nth j tbl Lookup.null_info) ->
    model (nth k tbl Lookup.null_info) = model (nth i tbl Lookup.null_info).

(** ** The handshake, in the words of its description *)

(** Number of change requests handed to the bus. *)
Definition changes (t : list event) : nat := List.length (filter is_change t).

(** The four allocations thrustmaster_probe makes before it looks at the
    product id. *)
Definition probe_allocations_ok (env : usb_env) : bool :=
  alloc_ok env res_urb && alloc_ok env res_model_request
  && alloc_ok env res_response && alloc_ok env res_change_request.

(** Packets handed to the bus when they are sent one after the other and
    sending stops at the first that fails. *)
Fixpoint sent_until_failure (rets : list Z) : nat :=
  match rets with
  | [] => O
  | r :: rest => if r =? 0 then S (sent_until_failure rest) else 1%nat
  end.

Definition packets_attempted (env : usb_env) : nat :=
  if negb (alloc_ok env res_send_buf) then O
  else if bNumEndpoints env <? 2 then O
  else sent_until_failure
         (map (interrupt_msg_ret env) (seq 0 (List.length setup_arr))).

(** The [i]-th interrupt packet on its way to the second endpoint. *)
Definition interrupt_event (env : usb_env) (i : nat) : event :=
  InterruptMsg (bEndpointAddress env) (nth i setup_arr [])
               (interrupt_msg_ret env i).

(** The control requests submitted, in order. *)
Definition submissions (t : list event) : list event :=
  filter (fun ev => is_query ev || is_change ev) t.

(** What the completion of the change request leaves in the log. *)
Definition change_completion_event (status : Z) : event :=
  if (status =? 0) || (status =? - EPROTO) || (status =? - EPIPE)
  then Log dev_info wheel_initialized
  else Log dev_warn (change_urb_failed status).

(** How many completions a state is away from rest: the model request is
    followed by at most one change request, a change request by nothing. *)
Definition phase (s : state) : nat :=
  match in_flight s with
  | None => 0
  | Some u =>
      match complete u with change_handler => 1 | model_handler => 2 end
  end.

(** While the model request is in flight no change request has been
    submitted; while a change request is in flight it is the only one;
    at rest there has been at most one. *)
Definition handshake_inv (s : state) : Prop :=
  match in_flight s with
  | None => (changes (trace s) <= 1)%nat
  | Some u =>
      match complete u with
      | change_handler => changes (trace s) = 1%nat
      | model_handler => changes (trace s) = 0%nat
      end
  end.

(** ** Three devices *)

(** A T300RS on a little-endian host: everything succeeds, the change
    request completes with -EPROTO. *)
Definition env_t300rs : usb_env :=
  {| host := LittleEndian; idProduct := (x5d, xb6); bNumEndpoints := 2;
     bEndpointAddress := 1; alloc_ok := fun _ => true;
     interrupt_msg_ret := fun _ => 0; submit_urb_ret := fun _ => 0;
     query_status := 0;
     query_reply := [x49; x00; x00; x00; x00; x00; x06; x02];
     change_status := - EPROTO |}.

(** A wheel that is queried and answers with the T128's model and
    attachment. *)
Definition env_t128_queried : usb_env :=
  {| host := LittleEndian; idProduct := (x5d, xb6); bNumEndpoints := 2;
     bEndpointAddress := 1; alloc_ok := fun _ => true;
     interrupt_msg_ret := fun _ => 0; submit_urb_ret := fun _ => 0;
     query_status := 0;
     query_reply := [x49; x00; x00; x00; x00; x00; x09; x00];
     change_status := - EPROTO |}.

(** A T128 (product id 0xb69c) on a big-endian host. *)
Definition env_t128 : usb_env :=
  {| host := BigEndian; idProduct := (x9c, xb6); bNumEndpoints := 2;
     bEndpointAddress := 1; alloc_ok := fun _ => true;
     interrupt_msg_ret := fun _ => 0; submit_urb_ret := fun _ => 0;
     query_status := 0;
     query_reply := [x49; x00; x00; x00; x00; x00; x09; x00];
     change_status := - EPIPE |}.

(** ** Disconnect and the two drivers around the handshake *)

Definition ENOENT : Z := 2.

(** usb_kill_urb(tm_wheel->urb): a URB in flight is cancelled and its
    completion function has run, with status -ENOENT, when the call
    returns; an idle URB is left alone. *)
Definition usb_kill_urb (env : usb_env) : M unit :=
  pending <- take_in_flight;;
  match pending with
  | None => ret tt
  | Some u =>
      match complete u with
      | model_handler => thrustmaster_model_handler env (- ENOENT)
      | change_handler => thrustmaster_change_handler (- ENOENT)
      end
  end.

(** What the two drivers do besides the calls of tminit.c; [kzalloc_tm_wheel]
    and [kfree_tm_wheel] are the allocation and the release of the struct
    tm_wheel itself. *)
Inductive outer_event :=
| kzalloc_tm_wheel
| kfree_tm_wheel
| usb_set_intfdata
| hid_set_drvdata
| hid_parse (ret : Z)
| hid_hw_start (connect_mask : Z) (ret : Z)
| hid_hw_stop
| hid_err_parse_failed (ret : Z)
| hid_err_hw_start_failed (ret : Z).

(** include/linux/hid.h *)
Definition HID_CONNECT_HIDINPUT : Z := 1.
Definition HID_CONNECT_HIDRAW : Z := 4.
Definition HID_CONNECT_HIDDEV : Z := 8.
Definition HID_CONNECT_FF : Z := 32.
Definition HID_CONNECT_DEFAULT : Z :=
  Z.lor (Z.lor (Z.lor HID_CONNECT_HIDINPUT HID_CONNECT_HIDRAW)
               HID_CONNECT_HIDDEV) HID_CONNECT_FF.

Record driver_env := {
  usb : usb_env;
  idVendor : byte * byte;           (* descriptor.idVendor, an __le16 *)
  tm_wheel_alloc_ok : bool;         (* kzalloc(sizeof(struct tm_wheel)) *)
  hid_parse_ret : Z;
  hid_hw_start_ret : Z
}.

(** The state of tminit.c together with what the driver around it did;
    each outer event carries the length of the inner trace at its time. *)
Record driver_state := {
  core : state;
  outer : list (nat * outer_event)
}.

Definition unbound : driver_state := {| core := initial_state; outer := [] |}.

Definition G (A : Type) : Type := driver_state -> A * driver_state.

Definition gret {A : Type} (a : A) : G A := fun g => (a, g).

Definition gbind {A B : Type} (c : G A) (k : A -> G B) : G B :=
  fun g => let (a, g') := c g in k a g'.

Definition lift {A : Type} (c : M A) : G A :=
  fun g => let (a, s') := c (core g) in
           (a, {| core := s'; outer := outer g |}).

Definition note (ev : outer_event) : G unit :=
  fun g => (tt, {| core := core g;
                   outer := outer g
                            ++ [(List.length (trace (core g)), ev)] |}).

Declare Scope glue_scope.
Delimit Scope glue_scope with glue.
Notation "x <- c ;; k" := (gbind c (fun x => k))
  (at level 61, c at next level, right associativity) : glue_scope.
Notation "c ;; k" := (gbind c (fun _ => k))
  (at level 61, right associativity) : glue_scope.
Local Open Scope glue_scope.

Section Drivers.
Variable denv : driver_env.

(** Called on the tm_wheel of a bound interface, whose four pointers
    thrustmaster_probe has set. *)
Definition thrustmaster_disconnect : G unit :=
  lift (usb_kill_urb (usb denv));;
  lift (emit (Put res_change_request));;
  lift (emit (Put res_response));;
  lift (emit (Put res_model_request));;
  lift (emit (Put res_urb));;
  note kfree_tm_wheel.

Definition thrustmaster_usb_probe : G Z :=
  if negb (tm_wheel_alloc_ok denv) then gret (- ENOMEM)
  else
    note kzalloc_tm_wheel;;
    note usb_set_intfdata;;
    r <- lift (thrustmaster_probe (usb denv));;
    if negb (r =? 0) then
      note kfree_tm_wheel;;
      gret r
    else gret r.

Definition thrustmaster_usb_disconnect : G unit :=
  lift usb_put_intf;;
  lift (emit (Put res_usb_dev));;
  thrustmaster_disconnect.

Definition thrustmaster_hid_probe : G Z :=
  if negb (tm_wheel_alloc_ok denv) then gret (- ENOMEM)
  else
    note kzalloc_tm_wheel;;
    note (hid_parse (hid_parse_ret denv));;
    if negb (hid_parse_ret denv =? 0) then
      note (hid_err_parse_failed (hid_parse_ret denv));;
      note kfree_tm_wheel;;
      gret (hid_parse_ret denv)
    else
      note (hid_hw_start
              (Z.land HID_CONNECT_DEFAULT (Z.lnot HID_CONNECT_FF))
              (hid_hw_start_ret denv));;
      if negb (hid_hw_start_ret denv =? 0) then
        note (hid_err_hw_start_failed (hid_hw_start_ret denv));;
        note kfree_tm_wheel;;
        gret (hid_hw_start_ret denv)
      else
        note hid_set_drvdata;;
        r <- lift (thrustmaster_probe (usb denv));;
        if negb (r =? 0) then
          note hid_hw_stop;;
          note kfree_tm_wheel;;
          gret r
        else gret r.

Definition thrustmaster_hid_disconnect : G unit :=
  thrustmaster_disconnect;;
  note hid_hw_stop.

(** A device from the probe of a driver, through [n] completions, to
    the disconnect of the same driver; a device whose probe failed is
    not bound and is never disconnected. *)
Definition usb_lifecycle (n : nat) : G Z :=
  r <- thrustmaster_usb_probe;;
  if r =? 0 then
    lift (completions (usb denv) n);;
    thrustmaster_usb_disconnect;;
    gret r
  else gret r.

Definition hid_lifecycle (n : nat) : G Z :=
  r <- thrustmaster_hid_probe;;
  if r =? 0 then
    lift (completions (usb denv) n);;
    thrustmaster_hid_disconnect;;
    gret r
  else gret r.

End Drivers.
Close Scope glue_scope.

(** The id tables of the two drivers: (vendor, product). *)
Definition thrustmaster_usb_devices : list (Z * Z) := [(0x044f, 0xb69c)].

Definition thrustmaster_hid_devices : list (Z * Z) :=
  [(0x044f, 0xb65d); (0x044f, 0xb664); (0x044f, 0xb69c)].

Definition le16_value (b : byte * byte) : Z := u8 (fst b) + 256 * u8 (snd b).

(** USB_DEVICE / HID_USB_DEVICE: an entry matches on vendor and product. *)
Definition id_matches (table : list (Z * Z)) (denv : driver_env) : bool :=
  existsb (fun id => (fst id =? le16_value (idVendor denv))
                     && (snd id =? le16_value (idProduct (usb denv))))
          table.

(** ** Counting what a trace holds *)

Definition resource_index (r : resource) : nat :=
  match r with
  | res_usb_dev => 0 | res_usb_intf => 1 | res_urb => 2
  | res_model_request => 3 | res_response => 4 | res_change_request => 5
  | res_send_buf => 6
  end.

Definition is_get (r : resource) (ev : event) : bool :=
  match ev with
  | Get r' => Nat.eqb (resource_index r) (resource_index r')
  | _ => false
  end.

Definition is_put (r : resource) (ev : event) : bool :=
  match ev with
  | Put r' => Nat.eqb (resource_index r) (resource_index r')
  | _ => false
  end.

Definition gets (r : resource) (t : list event) : nat :=
  List.length (filter (is_get r) t).

Definition puts (r : resource) (t : list event) : nat :=
  List.length (filter (is_put r) t).

Definition is_alloc_event (ev : event) : bool :=
  match ev with Get _ | Put _ => true | _ => false end.

Definition outer_count (ev : outer_event -> bool)
  (o : list (nat * outer_event)) : nat :=
  List.length (filter (fun p => ev (snd p)) o).

Definition is_kzalloc_tm_wheel (ev : outer_event) : bool :=
  match ev with kzalloc_tm_wheel => true | _ => false end.

Definition is_kfree_tm_wheel (ev : outer_event) : bool :=
  match ev with kfree_tm_wheel => true | _ => false end.

Definition is_hid_hw_start_ok (ev : outer_event) : bool :=
  match ev with hid_hw_start _ ret => ret =? 0 | _ => false end.

Definition is_hid_hw_stop (ev : outer_event) : bool :=
  match ev with hid_hw_stop => true | _ => false end.

(** The messages a trace logs at a level. *)
Definition logged_at (l : level) (t : list event) : list message :=
  flat_map (fun ev => match ev with
                      | Log l' m =>
                          match l, l' with
                          | dev_err, dev_err | dev_warn, dev_warn
                          | dev_info, dev_info => [m]
                          | _, _ => []
                          end
                      | _ => []
                      end) t.

(** Number of model requests handed to the bus. *)
Definition queries (t : list event) : nat := List.length (filter is_query t).

(** What the two completion functions can add to a trace: log lines and
    the change request. *)
Definition handler_event (ev : event) : bool :=
  negb (is_alloc_event ev) && negb (is_query ev) && negb (is_interrupt ev).

(** The model request is submitted at most once and usb_submit_urb is
    called at most twice; while the model request is in flight it has
    been called once. *)
Definition submit_inv (s : state) : Prop :=
  (queries (trace s) <= 1)%nat /\ (submitted s <= 2)%nat /\
  match in_flight s with
  | None => True
  | Some u =>
      match complete u with
      | model_handler => submitted s = 1%nat
      | change_handler => True
      end
  end.

(** What usb_kill_urb leaves in the log: the line of the completion
    function of the URB that was in flight, called with -ENOENT. *)
Definition kill_log (pending : option urb) : list event :=
  match pending with
  | None => []
  | Some u =>
      match complete u with
      | model_handler => [Log dev_err (model_urb_failed (- ENOENT))]
      | change_handler => [Log dev_warn (change_urb_failed (- ENOENT))]
      end
  end.

(** What thrustmaster_disconnect frees, in its order. *)
Definition disconnect_frees : list event :=
  [Put res_change_request; Put res_response; Put res_model_request;
   Put res_urb].

(** ** Devices on the two drivers *)

Definition denv_t128 : driver_env :=
  {| usb := env_t128; idVendor := (x4f, x04); tm_wheel_alloc_ok := true;
     hid_parse_ret := 0; hid_hw_start_ret := 0 |}.

Definition denv_t300rs : driver_env :=
  {| usb := env_t300rs; idVendor := (x4f, x04); tm_wheel_alloc_ok := true;
     hid_parse_ret := 0; hid_hw_start_ret := 0 |}.

(** A tm_wheel whose model request was answered with the single byte
    0x49. *)
Definition answered_one_byte : state :=
  {| wheel := with_change_request (Some change_request)
                (with_response (receive [x49] zeroed_response) zeroed_wheel);
     trace := []; submitted := 1; in_flight := None |}.

(** A tm_wheel whose model request was answered with type 0x0047,
    model 0x02 and an attachment the table does not have for it. *)
Definition answered_unknown_attachment : state :=
  {| wheel := with_change_request (Some change_request)
                (with_response
                   (receive [x47; x00; x00; x00; x00; x00; x01; x02]
                      zeroed_response)
                   zeroed_wheel);
     trace := []; submitted := 1; in_flight := None |}.

(** * Properties *)

(** ** Bytes and byte order *)

Lemma u8_range (b : byte) : 0 <= u8 b < 256.
Proof.
  unfold u8. pose proof (Byte.to_N_bounded b). lia.
Qed.

Lemma land_255 (x : Z) : Z.land x 255 = x mod 256.
Proof.
  change 255 with (Z.ones 8). rewrite Z.land_ones by lia. reflexivity.
Qed.

Lemma swab16_bytes (a b : Z) :
  0 <= a < 256 -> 0 <= b < 256 -> swab16 (256 * a + b) = 256 * b + a.
Proof.
  intros Ha Hb. unfold swab16.
  rewrite !land_255, Z.shiftr_div_pow2, Z.shiftl_mul_pow2 by lia.
  change (2 ^ 8) with 256.
  replace ((256 * a + b) mod 256) with b
    by (rewrite Z.add_comm, Z.mul_comm, Z.mod_add, Z.mod_small; lia).
  replace ((256 * a + b) / 256) with a
    by (rewrite Z.add_comm, Z.mul_comm, Z.div_add, Z.div_small; lia).
  rewrite (Z.mod_small a) by lia.
  assert (Hz : Z.land (b * 256) a = 0).
  { rewrite <- (Z.mod_small a 256) at 1 by lia.
    rewrite <- land_255, (Z.land_comm a 255), Z.land_assoc, land_255,
      Z.mod_mul by lia.
    reflexivity. }
  pose proof (Z.add_lor_land (b * 256) a) as Hadd.
  rewrite Hz in Hadd. lia.
Qed.

(** Whatever the host's byte order, le16_to_cpu of a loaded __le16 is the
    little-endian value of its two bytes. *)
Lemma le16_to_cpu_load16 (e : endianness) (b0 b1 : byte) :
  le16_to_cpu e (load16 e b0 b1) = u8 b0 + 256 * u8 b1.
Proof.
  pose proof (u8_range b0). pose proof (u8_range b1).
  destruct e; unfold le16_to_cpu, load16; [reflexivity |].
  rewrite swab16_bytes by lia. lia.
Qed.

(** Comparing a loaded 16-bit field with cpu_to_le16 of a constant
    compares its little-endian value with the constant. *)
Lemma load16_eqb_cpu_to_le16 (e : endianness) (b0 b1 : byte) (v : Z) :
  0 <= v < 65536 ->
  (load16 e b0 b1 =? cpu_to_le16 e v) = (u8 b0 + 256 * u8 b1 =? v).
Proof.
  intros Hv.
  pose proof (u8_range b0). pose proof (u8_range b1).
  destruct e; unfold load16, cpu_to_le16; [reflexivity |].
  replace v with (256 * (v / 256) + v mod 256) at 1
    by (pose proof (Z.div_mod v 256); lia).
  rewrite swab16_bytes
    by (split; try apply Z.mod_pos_bound; try apply Z.div_pos;
        try apply Z.div_lt_upper_bound; lia).
  pose proof (Z.div_mod v 256 ltac:(lia)).
  pose proof (Z.mod_pos_bound v 256 ltac:(lia)).
  destruct (Z.eqb_spec (256 * u8 b0 + u8 b1) (256 * (v mod 256) + v / 256));
    destruct (Z.eqb_spec (u8 b0 + 256 * u8 b1) v); try reflexivity; exfalso.
  - apply n. assert (u8 b0 = v mod 256 /\ u8 b1 = v / 256) as [-> ->]; lia.
  - apply n. subst v.
    replace ((u8 b0 + 256 * u8 b1) mod 256) with (u8 b0)
      by (rewrite Z.mul_comm, Z.mod_add, Z.mod_small; lia).
    replace ((u8 b0 + 256 * u8 b1) / 256) with (u8 b1)
      by (rewrite Z.mul_comm, Z.div_add, Z.div_small; lia).
    reflexivity.
Qed.

(** The wire carries the switch value low byte first on either host. *)
Lemma store16_cpu_to_le16 (e : endianness) (v : Z) :
  0 <= v < 65536 ->
  store16 e (cpu_to_le16 e v) = (v mod 256, v / 256).
Proof.
  intros Hv. unfold store16, cpu_to_le16.
  assert (Hdiv : 0 <= v / 256 < 256)
    by (split; [apply Z.div_pos | apply Z.div_lt_upper_bound]; lia).
  pose proof (Z.mod_pos_bound v 256 ltac:(lia)) as Hmod.
  destruct e.
  - rewrite land_255, Z.shiftr_div_pow2, land_255 by lia.
    change (2 ^ 8) with 256. rewrite (Z.mod_small (v / 256)) by lia.
    reflexivity.
  - replace v with (256 * (v / 256) + v mod 256) at 1 2
      by (pose proof (Z.div_mod v 256); lia).
    rewrite swab16_bytes by lia.
    rewrite land_255, Z.shiftr_div_pow2, land_255 by lia.
    change (2 ^ 8) with 256.
    replace ((256 * (v mod 256) + v / 256) / 256) with (v mod 256)
      by (rewrite Z.add_comm, Z.mul_comm, Z.div_add, Z.div_small; lia).
    replace ((256 * (v mod 256) + v / 256) mod 256) with (v / 256)
      by (rewrite Z.add_comm, Z.mul_comm, Z.mod_add, Z.mod_small; lia).
    rewrite Z.mod_small by lia. reflexivity.
Qed.

(** ** The two loops *)

Module LookupFacts.
Import Lookup.
Section Facts.
Variable tbl : list tm_wheel_info.
Variable len : nat.
Variable mdl att : byte.
Hypothesis len_ok : len = List.length tbl.

Lemma if_known {A : Type} (c b : bool) (x y : A) :
  c = b -> (if c then x else y) = (if b then x else y).
Proof. intros ->. reflexivity. Qed.

Lemma find_model_step (i : nat) (twi : option nat) :
  find_model tbl len mdl i twi =
  if (i <? len)%nat && is_null twi
  then find_model tbl len mdl (S i)
         (if Byte.eqb (model (at_index tbl i)) mdl then Some i else twi)
  else (i, twi).
Proof.
  rewrite find_model_equation_1.
  destruct (Sumbool.sumbool_of_bool _) as [H | H];
    rewrite (if_known _ _ _ _ H); reflexivity.
Qed.

Lemma find_attachment_step (i twi : nat) (found : bool) :
  find_attachment tbl len mdl att i twi found =
  if negb found && (i <? len)%nat && Byte.eqb (model (at_index tbl i)) mdl
  then if Byte.eqb (attachment (at_index tbl i)) att
       then find_attachment tbl len mdl att (S i) i true
       else find_attachment tbl len mdl att (S i) twi found
  else (twi, found).
Proof.
  rewrite find_attachment_equation_1.
  destruct (Sumbool.sumbool_of_bool _) as [H | H];
    rewrite (if_known _ _ _ _ H); reflexivity.
Qed.

(** A loop whose condition is false on entry changes nothing. *)
Lemma find_model_found (i k : nat) :
  find_model tbl len mdl i (Some k) = (i, Some k).
Proof.
  rewrite find_model_step, andb_false_r. reflexivity.
Qed.

Lemma find_attachment_found (i twi : nat) :
  find_attachment tbl len mdl att i twi true = (twi, true).
Proof.
  rewrite find_attachment_step. reflexivity.
Qed.

Lemma skipn_uncons (i : nat) (e : tm_wheel_info) (l : list tm_wheel_info) :
  skipn i tbl = e :: l ->
  (i < len)%nat /\ at_index tbl i = e /\ skipn (S i) tbl = l.
Proof.
  intros H. subst len. unfold at_index.
  assert (Hi : (i < List.length tbl)%nat).
  { destruct (Nat.lt_ge_cases i (List.length tbl)) as [Hlt | Hge]; [exact Hlt |].
    rewrite skipn_all2 in H by exact Hge. discriminate. }
  split; [exact Hi |]. split.
  - rewrite <- (Nat.add_0_r i), <- nth_skipn, H. reflexivity.
  - replace (S i) with (1 + i)%nat by reflexivity.
    rewrite <- skipn_skipn, H. reflexivity.
Qed.

(** The first loop finds the first entry of the model in what is left of
    the table, and stops one past it; it runs to the end when there is
    none. *)
Lemma find_model_suffix (l : list tm_wheel_info) :
  forall i : nat,
    skipn i tbl = l -> (i <= len)%nat ->
    find_model tbl len mdl i None =
    match index_of (has_model mdl) l with
    | Some k => (S (i + k), Some (i + k)%nat)
    | None => (len, None)
    end.
Proof.
  induction l as [| e l IH]; intros i Hskip Hle.
  - rewrite find_model_step.
    assert (Hge : (len <= i)%nat).
    { destruct (Nat.lt_ge_cases i len) as [Hlt | Hge]; [| exact Hge].
      exfalso. rewrite len_ok in Hlt.
      apply (f_equal (@List.length _)) in Hskip.
      rewrite length_skipn in Hskip. simpl in Hskip. lia. }
    replace (i <? len)%nat with false
      by (symmetry; apply Nat.ltb_ge; exact Hge).
    simpl. f_equal. lia.
  - destruct (skipn_uncons i e l Hskip) as (Hlt & Hat & Hskip').
    rewrite find_model_step.
    replace (i <? len)%nat with true
      by (symmetry; apply Nat.ltb_lt; exact Hlt).
    simpl. rewrite Hat. unfold has_model at 1.
    destruct (Byte.eqb (model e) mdl).
    + rewrite find_model_found, Nat.add_0_r. reflexivity.
    + rewrite (IH (S i) Hskip') by lia.
      destruct (index_of (has_model mdl) l) as [k |]; simpl;
        [rewrite Nat.add_succ_r |]; reflexivity.
Qed.

(** The second loop walks the run of the model in what is left of the
    table and takes the first entry of the attachment. *)
Lemma find_attachment_suffix (l : list tm_wheel_info) :
  forall i twi : nat,
    skipn i tbl = l ->
    find_attachment tbl len mdl att i twi false =
    match index_of (has_attachment att) (take_while (has_model mdl) l) with
    | Some j => ((i + j)%nat, true)
    | None => (twi, false)
    end.
Proof.
  induction l as [| e l IH]; intros i twi Hskip.
  - rewrite find_attachment_step.
    assert (Hge : (len <= i)%nat).
    { destruct (Nat.lt_ge_cases i len) as [Hlt | Hge]; [| exact Hge].
      exfalso. rewrite len_ok in Hlt.
      apply (f_equal (@List.length _)) in Hskip.
      rewrite length_skipn in Hskip. simpl in Hskip. lia. }
    replace (i <? len)%nat with false
      by (symmetry; apply Nat.ltb_ge; exact Hge).
    reflexivity.
  - destruct (skipn_uncons i e l Hskip) as (Hlt & Hat & Hskip').
    rewrite find_attachment_step.
    replace (i <? len)%nat with true
      by (symmetry; apply Nat.ltb_lt; exact Hlt).
    simpl. rewrite Hat. unfold has_model at 1.
    destruct (Byte.eqb (model e) mdl); [| reflexivity].
    simpl. unfold has_attachment at 1.
    destruct (Byte.eqb (attachment e) att).
    + rewrite find_attachment_found, Nat.add_0_r. reflexivity.
    + rewrite (IH (S i) twi Hskip').
      destruct (index_of _ _) as [j |]; simpl;
        [rewrite Nat.add_succ_r |]; reflexivity.
Qed.

Lemma index_of_skipn (p : tm_wheel_info -> bool) (l : list tm_wheel_info) :
  forall k : nat,
    index_of p l = Some k ->
    exists e rest,
      skipn k l = e :: rest /\ p e = true /\
      forall x, In x (firstn k l) -> p x = false.
Proof.
  induction l as [| a l IH]; intros k Hk; simpl in Hk; [discriminate |].
  destruct (p a) eqn:Hpa.
  - injection Hk as <-. exists a, l. simpl. repeat split; tauto.
  - destruct (index_of p l) as [k' |]; [| discriminate].
    injection Hk as <-.
    destruct (IH k' eq_refl) as (e & rest & Hskip & Hpe & Hbefore).
    exists e, rest. simpl. repeat split; try assumption.
    intros x [<- | Hx]; [exact Hpa | exact (Hbefore x Hx)].
Qed.

Lemma index_of_None (p : tm_wheel_info -> bool) (l : list tm_wheel_info) :
  index_of p l = None <-> forall x, In x l -> p x = false.
Proof.
  induction l as [| a l IH]; simpl.
  - split; [intros _ x [] | reflexivity].
  - destruct (p a) eqn:Hpa.
    + split; [discriminate |]. intros H.
      rewrite (H a (or_introl eq_refl)) in Hpa. discriminate.
    + destruct (index_of p l) as [k |]; simpl.
      * split; [discriminate |]. intros H.
        assert (Hnone : Some k = None); [| discriminate].
        apply IH. intros x Hx. apply H. right. exact Hx.
      * split; [| reflexivity]. intros _ x [<- | Hx]; [exact Hpa |].
        apply IH; [reflexivity | exact Hx].
Qed.

(** The code's two loops compute the search as it is described. *)
Lemma resolve_refines :
  Lookup.resolve tbl len mdl att = resolve_described tbl mdl att.
Proof.
  unfold Lookup.resolve, resolve_described, candidate.
  rewrite (find_model_suffix tbl 0 eq_refl (Nat.le_0_l len)).
  destruct (index_of (has_model mdl) tbl) as [k |] eqn:Hk; [| reflexivity].
  destruct (index_of_skipn _ _ _ Hk) as (e & rest & Hskip & He & _).
  destruct (skipn_uncons k e rest Hskip) as (Hlt & Hat & Hskip').
  unfold run_from. rewrite Hskip. simpl. rewrite He, Hat. simpl.
  unfold has_attachment at 1.
  destruct (Byte.eqb (attachment e) att).
  - rewrite find_attachment_found, Nat.add_0_r. reflexivity.
  - rewrite (find_attachment_suffix rest (S k) k Hskip').
    destruct (index_of (has_attachment att) _) as [j |]; cbn [option_map];
      [rewrite Nat.add_succ_r |]; reflexivity.
Qed.

(** The candidate is the first index of its model. *)
Lemma candidate_first (k : nat) :
  candidate tbl mdl = Some k ->
  (k < len)%nat /\ model (at_index tbl k) = mdl /\
  forall j, (j < k)%nat -> model (at_index tbl j) <> mdl.
Proof.
  intros Hk.
  destruct (index_of_skipn _ _ _ Hk) as (e & rest & Hskip & He & Hbefore).
  destruct (skipn_uncons k e rest Hskip) as (Hlt & Hat & _).
  split; [exact Hlt |]. split.
  - rewrite Hat. apply Byte.byte_dec_bl. exact He.
  - intros j Hj. apply Byte.eqb_false. apply Hbefore.
    unfold at_index.
    replace (nth j tbl null_info) with (nth j (firstn k tbl) null_info)
      by (rewrite nth_firstn;
          replace (j <? k)%nat with true
            by (symmetry; apply Nat.ltb_lt; exact Hj);
          reflexivity).
    apply nth_In. rewrite length_firstn. lia.
Qed.

Lemma candidate_exists :
  In mdl (map model tbl) -> exists k, candidate tbl mdl = Some k.
Proof.
  intros Hin. unfold candidate.
  destruct (index_of (has_model mdl) tbl) as [k |] eqn:Hk;
    [exists k; reflexivity |].
  exfalso. apply in_map_iff in Hin. destruct Hin as (e & He & Hin).
  rewrite index_of_None in Hk. specialize (Hk e Hin).
  unfold has_model in Hk. rewrite He in Hk.
  rewrite (Byte.byte_dec_lb eq_refl) in Hk. discriminate.
Qed.

(** No entry of the model: the search fails, and only then. *)
Lemma resolve_None_iff :
  Lookup.resolve tbl len mdl att = None <-> ~ In mdl (map model tbl).
Proof.
  rewrite resolve_refines. unfold resolve_described. split.
  - intros H Hin. destruct (candidate_exists Hin) as (k & Hk).
    rewrite Hk in H. destruct (index_of _ _); discriminate.
  - intros Hnot.
    destruct (candidate tbl mdl) as [k |] eqn:Hk; [| reflexivity].
    exfalso. apply Hnot.
    destruct (candidate_first k Hk) as (Hlt & Hm & _).
    rewrite <- Hm. apply in_map. apply nth_In. lia.
Qed.

(** An attachment that is not in the candidate's run: the candidate. *)
Lemma resolve_fallback (k : nat) :
  candidate tbl mdl = Some k ->
  ~ In att (map attachment (run_from tbl mdl k)) ->
  Lookup.resolve tbl len mdl att = Some (k, false).
Proof.
  intros Hk Hnot. rewrite resolve_refines. unfold resolve_described.
  rewrite Hk.
  replace (index_of (has_attachment att) (run_from tbl mdl k)) with (@None nat);
    [reflexivity |].
  symmetry. apply index_of_None. intros x Hx.
  unfold has_attachment.
  destruct (Byte.eqb (attachment x) att) eqn:Hxa; [| reflexivity].
  exfalso. apply Hnot. apply Byte.byte_dec_bl in Hxa. rewrite <- Hxa.
  apply in_map. exact Hx.
Qed.

(** Neither loop ever leaves [twi] on an entry of another model. *)
Lemma find_model_keeps_model (i : nat) (twi : option nat) :
  forall i' k,
    find_model tbl len mdl i twi = (i', Some k) ->
    twi = Some k \/ ((k < len)%nat /\ model (at_index tbl k) = mdl).
Proof.
  funelim (find_model tbl len mdl i twi); intros i' k Hres.
  - match goal with
    | IH : forall i' k, _ -> _ |- _ => destruct (IH i' k Hres) as [Hk | Hk]
    end; [| right; exact Hk].
    destruct (Byte.eqb (model (at_index tbl i)) mdl) eqn:Hm.
    + injection Hk as <-. right.
      pose proof (proj1 (andb_prop _ _ e)) as Hi. apply Nat.ltb_lt in Hi.
      split; [exact Hi | apply Byte.byte_dec_bl; exact Hm].
    + left. exact Hk.
  - injection Hres as _ ->. left. reflexivity.
Qed.

Lemma find_attachment_keeps_model (i twi : nat) (found : bool) :
  (twi < len)%nat /\ model (at_index tbl twi) = mdl ->
  (fst (find_attachment tbl len mdl att i twi found) < len)%nat /\
  model (at_index tbl (fst (find_attachment tbl len mdl att i twi found)))
  = mdl.
Proof.
  funelim (find_attachment tbl len mdl att i twi found); intros Htwi.
  - destruct (andb_prop _ _ e) as [Hc Hm].
    destruct (andb_prop _ _ Hc) as [_ Hi]. apply Nat.ltb_lt in Hi.
    apply Byte.byte_dec_bl in Hm.
    destruct (Byte.eqb (attachment (at_index tbl i)) att); auto.
  - exact Htwi.
Qed.

(** Whatever the search returns has the model that was searched for. *)
Lemma resolve_model (k : nat) (found : bool) :
  Lookup.resolve tbl len mdl att = Some (k, found) ->
  (k < len)%nat /\ model (at_index tbl k) = mdl.
Proof.
  unfold Lookup.resolve.
  destruct (find_model tbl len mdl 0 None) as [i [first |]] eqn:Hfirst;
    [| discriminate].
  intros Hres. injection Hres as Hres.
  destruct (find_model_keeps_model 0 None i first Hfirst) as [Hk | Hk];
    [discriminate |].
  pose proof (find_attachment_keeps_model i first
                (Byte.eqb (attachment (at_index tbl first)) att) Hk) as Hkeep.
  rewrite Hres in Hkeep. exact Hkeep.
Qed.

Lemma index_of_first (p : tm_wheel_info -> bool) (l : list tm_wheel_info) :
  forall n : nat,
    (n < List.length l)%nat -> p (nth n l null_info) = true ->
    exists j : nat,
      index_of p l = Some j /\ (j <= n)%nat /\ p (nth j l null_info) = true.
Proof.
  induction l as [| a l IH]; simpl; intros n Hn Hp; [lia |].
  destruct (p a) eqn:Hpa.
  - exists 0%nat. repeat split; [lia | exact Hpa].
  - destruct n as [| n]; [rewrite Hp in Hpa; discriminate |].
    destruct (IH n ltac:(lia) Hp) as (j & Hj & Hle & Hpj).
    exists (S j). rewrite Hj. repeat split; [lia | exact Hpj].
Qed.

Lemma take_while_nth (p : tm_wheel_info -> bool) (l : list tm_wheel_info) :
  forall n : nat,
    (n < List.length l)%nat ->
    (forall i, (i <= n)%nat -> p (nth i l null_info) = true) ->
    (n < List.length (take_while p l))%nat /\
    forall i, (i <= n)%nat ->
              nth i (take_while p l) null_info = nth i l null_info.
Proof.
  induction l as [| a l IH]; simpl; intros n Hn Hall; [lia |].
  rewrite (Hall 0%nat ltac:(lia)).
  destruct n as [| n].
  - simpl. split; [lia |]. intros i Hi.
    replace i with 0%nat by lia. reflexivity.
  - destruct (IH n ltac:(lia)) as [Hlen Hnth].
    { intros i Hi. apply (Hall (S i)). lia. }
    simpl. split; [lia |].
    intros [| i] Hi; [reflexivity | apply Hnth; lia].
Qed.

(** On a table whose entries of equal model are contiguous and whose
    (model, attachment) pairs are all different, the two loops find every
    entry by its own pair. *)
Lemma resolve_exact_when_contiguous (k : nat) :
  contiguous_models tbl ->
  NoDup (map (fun e => (model e, attachment e)) tbl) ->
  (k < len)%nat ->
  mdl = model (at_index tbl k) -> att = attachment (at_index tbl k) ->
  Lookup.resolve tbl len mdl att = Some (k, true).
Proof.
  intros Hcont Hnodup Hk Hmdl Hatt.
  rewrite resolve_refines. unfold resolve_described.
  assert (Hin : In mdl (map model tbl)).
  { rewrite Hmdl. apply in_map. apply nth_In. lia. }
  destruct (candidate_exists Hin) as (c & Hc). rewrite Hc.
  destruct (candidate_first c Hc) as (Hclt & Hcm & Hcfirst).
  assert (Hck : (c <= k)%nat).
  { destruct (Nat.le_gt_cases c k) as [Hle | Hgt]; [exact Hle |].
    exfalso. apply (Hcfirst k Hgt). symmetry. exact Hmdl. }
  assert (Hrun : forall i, (i <= k - c)%nat ->
            has_model mdl (nth i (skipn c tbl) null_info) = true).
  { intros i Hi. rewrite nth_skipn. unfold has_model.
    apply Byte.byte_dec_lb. rewrite <- Hcm. unfold at_index.
    apply (Hcont c k (c + i)%nat); [lia | lia | lia |].
    fold (at_index tbl c). fold (at_index tbl k). congruence. }
  destruct (take_while_nth (has_model mdl) (skipn c tbl) (k - c)%nat)
    as [Hlen Hnth]; [rewrite length_skipn; lia | exact Hrun |].
  fold (run_from tbl mdl c) in Hlen, Hnth.
  assert (Hatk : nth (k - c) (run_from tbl mdl c) null_info = at_index tbl k).
  { rewrite Hnth by lia. rewrite nth_skipn. unfold at_index.
    f_equal. lia. }
  destruct (index_of_first (has_attachment att) (run_from tbl mdl c)
              (k - c)%nat Hlen) as (j & Hj & Hjle & Hpj).
  { rewrite Hatk. unfold has_attachment. apply Byte.byte_dec_lb.
    symmetry. exact Hatt. }
  rewrite Hj. f_equal. f_equal.
  rewrite Hnth, nth_skipn in Hpj by exact Hjle.
  apply Byte.byte_dec_bl in Hpj.
  pose proof (Hrun j Hjle) as Hmj. rewrite nth_skipn in Hmj.
  apply Byte.byte_dec_bl in Hmj.
  rewrite (NoDup_nth _ (model null_info, attachment null_info)) in Hnodup.
  apply Hnodup; rewrite ?length_map; try lia.
  rewrite !(map_nth (fun e => (model e, attachment e))).
  fold (at_index tbl k). rewrite Hmj, Hpj, Hmdl, Hatt. reflexivity.
Qed.

End Facts.
End LookupFacts.

(** ** The probe and the session *)

Lemma u8_inj (a b : byte) : u8 a = u8 b -> a = b.
Proof.
  unfold u8. intros H. apply N2Z.inj in H.
  pose proof (Byte.of_to_N a) as Ha. rewrite H, Byte.of_to_N in Ha.
  injection Ha as ->. reflexivity.
Qed.

(** The switch on idProduct takes the 0xb69c case exactly for the
    descriptor bytes 9c b6. *)
Lemma product_is_b69c (e : endianness) (id : byte * byte) :
  (le16_to_cpu e (load16 e (fst id) (snd id)) =? 0xb69c) = true
  <-> id = (x9c, xb6).
Proof.
  rewrite le16_to_cpu_load16, Z.eqb_eq. destruct id as [lo hi]. cbn [fst snd].
  pose proof (u8_range lo). pose proof (u8_range hi). split.
  - intros H1.
    assert (Hlo : u8 lo = u8 x9c) by (change (u8 x9c) with 156; lia).
    assert (Hhi : u8 hi = u8 xb6) by (change (u8 xb6) with 182; lia).
    apply u8_inj in Hlo, Hhi. subst. reflexivity.
  - intros H1. injection H1 as -> ->. reflexivity.
Qed.

Lemma changes_app (t1 t2 : list event) :
  changes (t1 ++ t2) = (changes t1 + changes t2)%nat.
Proof.
  unfold changes. rewrite filter_app, length_app. reflexivity.
Qed.

(** Case analysis on the next test the driver makes. *)
Ltac branch :=
  match goal with
  | |- context [if negb ?c then _ else _] => destruct c eqn:?
  | |- context [if ?c then _ else _] => destruct c eqn:?
  | |- context [match ?x with inl _ => _ | inr _ => _ end] =>
      destruct x as [? | [? ?]] eqn:?
  | |- context [match ?x with Some _ => _ | None => _ end] =>
      destruct x as [[? ?] |] eqn:?
  end.

Ltac run :=
  cbn -[Z.eqb Z.ltb resolve read_model_attachment receive entry le16_to_cpu
        load16 cpu_to_le16 zeroed_response filter changes
        interrupt_packets switch_values_on_wire bus_traffic] in *.

Section DriverFacts.
Variable env : usb_env.

(** What thrustmaster_submit_change does to a state. *)
Lemma submit_change_run (v : Z) (s : state) :
  thrustmaster_submit_change env v s =
  let r := submit_urb_ret env (submitted s) in
  let rq := option_map (set_wValue (cpu_to_le16 (host env) v))
                       (tw_change_request (wheel s)) in
  (r, {| wheel := with_urb (Some change_urb)
                    (with_change_request rq (wheel s));
         trace := (trace s ++ [SubmitUrb change_urb rq r])
                  ++ (if r =? 0 then []
                      else [Log dev_err (change_submit_error r)]);
         submitted := S (submitted s);
         in_flight := if r =? 0 then Some change_urb else in_flight s |}).
Proof.
  unfold thrustmaster_submit_change, bind. run.
  destruct (submit_urb_ret env (submitted s) =? 0); run;
    rewrite ?app_nil_r; reflexivity.
Qed.

(** What thrustmaster_change_handler does to a state. *)
Lemma change_handler_run (status : Z) (s : state) :
  thrustmaster_change_handler status s =
  (tt, {| wheel := wheel s;
          trace := trace s ++
            [if (status =? 0) || (status =? - EPROTO) || (status =? - EPIPE)
             then Log dev_info wheel_initialized
             else Log dev_warn (change_urb_failed status)];
          submitted := submitted s;
          in_flight := in_flight s |}).
Proof.
  unfold thrustmaster_change_handler.
  destruct ((status =? 0) || (status =? - EPROTO) || (status =? - EPIPE));
    reflexivity.
Qed.

End DriverFacts.

(** ** The response and its two layouts *)

Lemma read_model_attachment_tag (e : endianness) (buf : list byte) :
  read_model_attachment e buf =
  if u8 (read_u8 buf 0) + 256 * u8 (read_u8 buf 1) =? 0x49
  then inr (read_u8 buf 7, read_u8 buf 6)
  else if u8 (read_u8 buf 0) + 256 * u8 (read_u8 buf 1) =? 0x47
       then inr (read_u8 buf 7, read_u8 buf 6)
       else inl (response_type e buf).
Proof.
  unfold read_model_attachment, response_type, read_u16, type_offset.
  rewrite !load16_eqb_cpu_to_le16 by lia. reflexivity.
Qed.

Lemma length_receive (data buf : list byte) :
  List.length (receive data buf) = List.length buf.
Proof.
  unfold receive. rewrite length_firstn, length_app, length_skipn. lia.
Qed.

(** What thrustmaster_model_handler does to a state, test by test. *)
Lemma model_handler_run (env : usb_env) (status : Z) (s : state) :
  thrustmaster_model_handler env status s =
  if negb (status =? 0) then log dev_err (model_urb_failed status) s
  else
    match read_model_attachment (host env) (tw_response (wheel s)) with
    | inl type => log dev_err (unknown_packet_type type) s
    | inr (mdl, att) =>
        match resolve mdl att with
        | Some (k, found) =>
            (tt, snd (thrustmaster_submit_change env (switch_value (entry k))
                        (snd (log dev_info
                                (wheel_is mdl att (wheel_name (entry k)) found)
                                s))))
        | None => log dev_err (unknown_model mdl) s
        end
    end.
Proof.
  unfold thrustmaster_model_handler.
  destruct (negb (status =? 0)); [reflexivity |].
  unfold bind at 1. unfold get_wheel.
  destruct (read_model_attachment _ _) as [type | [mdl att]]; [reflexivity |].
  destruct (resolve mdl att) as [[k found] |]; [| reflexivity].
  unfold bind. destruct (log _ _ s) as [[] s1]. cbn [snd].
  destruct (thrustmaster_submit_change _ _ s1). reflexivity.
Qed.

(** The three ways the model handler gives up: it logs one error,
    submits nothing and leaves nothing in flight. *)
Lemma model_handler_gives_up (env : usb_env) (status : Z) (s : state) :
  status <> 0 \/
  (exists type,
     read_model_attachment (host env) (tw_response (wheel s)) = inl type) \/
  (exists mdl att,
     read_model_attachment (host env) (tw_response (wheel s))
     = inr (mdl, att) /\ resolve mdl att = None) ->
  let s' := snd (thrustmaster_model_handler env status s) in
  (exists m, trace s' = trace s ++ [Log dev_err m]) /\
  wheel s' = wheel s /\ submitted s' = submitted s /\
  in_flight s' = in_flight s.
Proof.
  intros H s'. subst s'. rewrite model_handler_run.
  destruct (Z.eqb_spec status 0) as [Hst | Hst]; cbn [negb].
  - destruct H as [H | [(type & H) | (mdl & att & H & Hres)]];
      [contradiction | |]; rewrite H; [| rewrite Hres]; cbn;
      repeat split; eexists; reflexivity.
  - cbn. repeat split. eexists. reflexivity.
Qed.

(** C7. The response type is the little-endian value of the first two
    bytes of the response, whatever the host's byte order. Type 0x0049
    reads model and attachment through the a layout, type 0x0047 through
    the b layout; with any other type the handler logs the unknown packet
    type, submits nothing and leaves nothing in flight. The response
    buffer has the size of the struct whatever the wheel answers, so the
    four bytes read lie inside it. *)
Theorem response_type_selects_layout (e : endianness) (buf : list byte) :
  let tag := u8 (read_u8 buf 0) + 256 * u8 (read_u8 buf 1) in
  (tag = 0x0049 ->
   read_model_attachment e buf
   = inr (data_field data_a "model" buf, data_field data_a "attachment" buf))
  /\
  (tag = 0x0047 ->
   read_model_attachment e buf
   = inr (data_field data_b "model" buf, data_field data_b "attachment" buf))
  /\
  (tag <> 0x0049 -> tag <> 0x0047 ->
   read_model_attachment e buf = inl (response_type e buf) /\
   forall (env : usb_env) (s : state),
     host env = e -> tw_response (wheel s) = buf ->
     let s' := snd (thrustmaster_model_handler env 0 s) in
     trace s'
     = trace s ++ [Log dev_err (unknown_packet_type (response_type e buf))]
     /\ submitted s' = submitted s /\ in_flight s' = in_flight s)
  /\
  (forall reply : list byte,
     List.length (receive reply zeroed_response) = sizeof_tm_wheel_response /\
     Forall (fun off => (off < sizeof_tm_wheel_response)%nat)
       [type_offset; S type_offset;
        (data_offset + offsetof data_a "model")%nat;
        (data_offset + offsetof data_a "attachment")%nat;
        (data_offset + offsetof data_b "model")%nat;
        (data_offset + offsetof data_b "attachment")%nat]).
Proof.
  intros tag. rewrite read_model_attachment_tag. fold tag.
  split; [| split; [| split]].
  - intros ->. reflexivity.
  - intros ->. reflexivity.
  - intros Ha Hb.
    destruct (Z.eqb_spec tag 0x49); [contradiction |].
    destruct (Z.eqb_spec tag 0x47); [contradiction |].
    split; [reflexivity |].
    intros env s He Hbuf s'. subst s'.
    rewrite model_handler_run, He, Hbuf, read_model_attachment_tag.
    fold tag.
    destruct (Z.eqb_spec tag 0x49); [contradiction |].
    destruct (Z.eqb_spec tag 0x47); [contradiction |].
    cbn. repeat split.
  - intros reply. split.
    + rewrite length_receive. reflexivity.
    + repeat constructor.
Qed.

(** C9. In both layouts the attachment is byte 6 and the model byte 7 of
    the response, so a response of type 0x0049 and one of type 0x0047
    that carry the same two bytes there give the same (model,
    attachment) pair. *)
Theorem layouts_share_offsets (e : endianness) (buf_a buf_b : list byte) :
  ((data_offset + offsetof data_a "attachment")%nat = 6%nat /\
   (data_offset + offsetof data_b "attachment")%nat = 6%nat /\
   (data_offset + offsetof data_a "model")%nat = 7%nat /\
   (data_offset + offsetof data_b "model")%nat = 7%nat) /\
  (u8 (read_u8 buf_a 0) + 256 * u8 (read_u8 buf_a 1) = 0x0049 ->
   u8 (read_u8 buf_b 0) + 256 * u8 (read_u8 buf_b 1) = 0x0047 ->
   read_u8 buf_a 6 = read_u8 buf_b 6 ->
   read_u8 buf_a 7 = read_u8 buf_b 7 ->
   read_model_attachment e buf_a = inr (read_u8 buf_a 7, read_u8 buf_a 6) /\
   read_model_attachment e buf_b = read_model_attachment e buf_a).
Proof.
  split; [repeat split |].
  intros Ha Hb H6 H7. rewrite !read_model_attachment_tag.
  rewrite Ha, Hb, H6, H7. split; reflexivity.
Qed.

(** ** The search on the table of known wheels *)

Lemma tm_wheels_infos_length_ok :
  tm_wheels_infos_length = List.length tm_wheels_infos.
Proof. reflexivity. Qed.

(** The driver's search is the search as described. *)
Lemma resolve_as_described (mdl att : byte) :
  resolve mdl att = resolve_described tm_wheels_infos mdl att.
Proof.
  apply LookupFacts.resolve_refines. exact tm_wheels_infos_length_ok.
Qed.

(** Every entry before the T128 is found by its own (model, attachment). *)
Lemma resolve_entries_before_t128 (k : nat) :
  (k < 7)%nat ->
  resolve (model (entry k)) (attachment (entry k)) = Some (k, true).
Proof.
  intros Hk.
  do 7 (destruct k as [| k]; [reflexivity |]). lia.
Qed.

(** Without the T128 the table is in the order the loops need. *)
Lemma entries_before_t128_contiguous :
  contiguous_models (firstn 7 tm_wheels_infos).
Proof.
  intros i j k Hik Hkj Hj. cbn in Hj.
  destruct i as [| [| [| [| [| [| [| i]]]]]]];
    destruct k as [| [| [| [| [| [| [| k]]]]]]]; try lia;
    destruct j as [| [| [| [| [| [| [| j]]]]]]]; try lia;
    cbn; intros H; try reflexivity; discriminate H.
Qed.

(** C1. The pair (0x00, 0x09) is in the table, as the T128 with switch
    value 0x000b, and the search run on it stops at the T500RS, the first
    entry of model 0x00, without a match of the attachment: the next
    entry has another model. A wheel that answers the model request with
    this pair is logged as a T500RS and sent switch value 0x0002. *)
Theorem t128_pair_resolves_to_t500rs :
  nth_error tm_wheels_infos 7
  = Some {| model := x00; attachment := x09; switch_value := 0x000b;
            wheel_name := "Thrustmaster T128" |} /\
  resolve x00 x09 = Some (0%nat, false) /\
  wheel_name (entry 0) = "Thrustmaster T500RS"%string /\
  switch_value (entry 0) = 0x0002 /\
  filter from_model_handler
    (trace (snd (session env_t128_queried 2 initial_state)))
  = [Log dev_info (wheel_is x00 x09 "Thrustmaster T500RS" false)] /\
  switch_values_on_wire LittleEndian
    (trace (snd (session env_t128_queried 2 initial_state)))
  = [(0x02, 0x00)].
Proof.
  repeat split.
Qed.

(** C2. The table has model 0x00 in its first and in its last entry and
    model 0x02 in between: entries of equal model are not contiguous. *)
Theorem tm_wheels_infos_not_contiguous :
  ~ contiguous_models tm_wheels_infos.
Proof.
  intros H.
  specialize (H 0%nat 7%nat 1%nat (Nat.le_0_l 1)).
  cbn in H. assert (Hneq : x02 = x00) by (apply H; [lia | lia | reflexivity]).
  discriminate.
Qed.

(** C3. For a model that is in the table there is a first entry, and an
    attachment that none of the entries of its run has resolves to that
    first entry, with attachment_found = 0; the handler then logs the
    wheel under that entry's name and submits its switch value. The
    search comes back empty exactly when no entry has the model, and
    then the handler logs the unknown model and submits nothing. A run
    of the handler logs an unknown model exactly when the status is 0,
    the response has a known type and no entry has the model read from
    it: never for a model of the table. *)
Theorem resolve_fallback_or_unknown (mdl att : byte) :
  (In mdl (map model tm_wheels_infos) ->
   exists k : nat,
     candidate tm_wheels_infos mdl = Some k /\
     (k < tm_wheels_infos_length)%nat /\ model (entry k) = mdl /\
     (forall j, (j < k)%nat -> model (entry j) <> mdl) /\
     (~ In att (map attachment (run_from tm_wheels_infos mdl k)) ->
      resolve mdl att = Some (k, false))) /\
  (resolve mdl att = None <-> ~ In mdl (map model tm_wheels_infos)) /\
  (forall (env : usb_env) (s : state),
     read_model_attachment (host env) (tw_response (wheel s))
     = inr (mdl, att) ->
     ~ In mdl (map model tm_wheels_infos) ->
     let s' := snd (thrustmaster_model_handler env 0 s) in
     trace s' = trace s ++ [Log dev_err (unknown_model mdl)] /\
     submitted s' = submitted s /\ in_flight s' = in_flight s) /\
  (forall (env : usb_env) (s : state) (k : nat),
     read_model_attachment (host env) (tw_response (wheel s))
     = inr (mdl, att) ->
     candidate tm_wheels_infos mdl = Some k ->
     ~ In att (map attachment (run_from tm_wheels_infos mdl k)) ->
     let s' := snd (thrustmaster_model_handler env 0 s) in
     let r := submit_urb_ret env (submitted s) in
     trace s'
     = trace s
       ++ Log dev_info (wheel_is mdl att (wheel_name (entry k)) false)
          :: SubmitUrb change_urb
               (option_map
                  (set_wValue
                     (cpu_to_le16 (host env) (switch_value (entry k))))
                  (tw_change_request (wheel s)))
               r
          :: (if r =? 0 then [] else [Log dev_err (change_submit_error r)]))
  /\
  (forall (env : usb_env) (status : Z) (s : state),
   exists t : list event,
     trace (snd (thrustmaster_model_handler env status s)) = trace s ++ t /\
     forall (l : level) (m : byte),
       In (Log l (unknown_model m)) t <->
       l = dev_err /\ status = 0 /\
       exists a : byte,
         read_model_attachment (host env) (tw_response (wheel s))
         = inr (m, a) /\
         ~ In m (map model tm_wheels_infos)).
Proof.
  pose proof tm_wheels_infos_length_ok as Hlen.
  split; [| split; [| split; [| split]]].
  - intros Hin.
    destruct (LookupFacts.candidate_exists tm_wheels_infos mdl Hin)
      as (k & Hk).
    exists k. split; [exact Hk |].
    destruct (LookupFacts.candidate_first _ _ mdl Hlen k Hk)
      as (Hlt & Hm & Hfirst).
    repeat split; try assumption.
    intros Hnot.
    exact (LookupFacts.resolve_fallback _ _ mdl att Hlen k Hk Hnot).
  - exact (LookupFacts.resolve_None_iff _ _ mdl att Hlen).
  - intros env s Hread Hnot s'. subst s'.
    apply (LookupFacts.resolve_None_iff _ _ mdl att Hlen) in Hnot.
    fold (resolve mdl att) in Hnot.
    rewrite model_handler_run, Hread, Hnot. cbn. repeat split.
  - intros env s k Hread Hk Hnot s' r. subst s' r.
    pose proof (LookupFacts.resolve_fallback _ _ mdl att Hlen k Hk Hnot)
      as Hres.
    fold (resolve mdl att) in Hres.
    rewrite model_handler_run, Hread, Hres.
    cbn [negb Z.eqb snd]. rewrite submit_change_run. cbv zeta.
    cbn [snd log emit trace wheel submitted].
    rewrite <- !app_assoc. cbn [app].
    destruct (_ =? 0); reflexivity.
  - intros env status s. rewrite model_handler_run.
    destruct (Z.eqb_spec status 0) as [Hst | Hst]; cbn [negb].
    2: { eexists. split; [reflexivity |].
         intros l m. split.
         - intros [H | []]. discriminate H.
         - intros (_ & H & _). contradiction. }
    destruct (read_model_attachment (host env) (tw_response (wheel s)))
      as [type | [mdl' att']] eqn:Hread.
    { eexists. split; [reflexivity |].
      intros l m. split.
      - intros [H | []]. discriminate H.
      - intros (_ & _ & a & H & _). discriminate H. }
    destruct (resolve mdl' att') as [[k found] |] eqn:Hres.
    + cbn [snd]. rewrite submit_change_run. cbv zeta.
      cbn [snd log emit trace wheel submitted].
      eexists. rewrite <- !app_assoc. split; [reflexivity |].
      intros l m. split.
      * cbn [app].
        intros [H | [H | H]]; try discriminate H.
        destruct (_ =? 0); [destruct H |].
        destruct H as [H | []]. discriminate H.
      * intros (_ & _ & a & H & Hnot). exfalso.
        injection H as <- <-.
        apply (LookupFacts.resolve_None_iff _ _ mdl' att' Hlen) in Hnot.
        fold (resolve mdl' att') in Hnot. congruence.
    + eexists. split; [reflexivity |].
      pose proof (proj1 (LookupFacts.resolve_None_iff _ _ mdl' att' Hlen)
                    Hres) as Hnot.
      intros l m. split.
      * intros [H | []]. injection H as <- <-.
        split; [reflexivity |]. split; [exact Hst |].
        exists att'. split; [reflexivity | exact Hnot].
      * intros (-> & _ & a & H & _). injection H as <- <-.
        left. reflexivity.
Qed.

(** C10. Whatever entry the search returns, by a match of the attachment
    or as the fallback, lies in the table and has the model that was
    read from the response. *)
Theorem resolved_entry_has_decoded_model
  (mdl att : byte) (k : nat) (found : bool) :
  resolve mdl att = Some (k, found) ->
  (k < tm_wheels_infos_length)%nat /\ model (entry k) = mdl.
Proof.
  exact (LookupFacts.resolve_model
           tm_wheels_infos tm_wheels_infos_length mdl att k found).
Qed.

(** ** The handshake *)

Section Handshake.
Variable env : usb_env.

(** thrustmaster_probe leaves the model request in flight, or the change
    request of the 0xb69c case, or nothing. *)
Lemma probe_establishes_inv :
  handshake_inv (snd (thrustmaster_probe env initial_state)).
Proof.
  unfold thrustmaster_probe, thrustmaster_interrupts, bind. run.
  repeat (branch; run); unfold handshake_inv; cbn; lia.
Qed.

Lemma changes_log (l : level) (m : message) : changes [Log l m] = 0%nat.
Proof. reflexivity. Qed.

Lemma changes_submit_change (rq : option usb_ctrlrequest) (r : Z) :
  changes [SubmitUrb change_urb rq r] = 1%nat.
Proof. reflexivity. Qed.

(** The model handler, run with nothing in flight and no change request
    submitted so far, submits at most the one change request. *)
Lemma model_handler_inv (status : Z) (s : state) :
  in_flight s = None -> changes (trace s) = 0%nat ->
  let s' := snd (thrustmaster_model_handler env status s) in
  handshake_inv s' /\ (phase s' <= 1)%nat.
Proof.
  intros Hfl Hch s'. subst s'. rewrite model_handler_run.
  assert (Hlog : forall l m,
            handshake_inv (snd (log l m s)) /\ (phase (snd (log l m s)) <= 1)%nat).
  { intros l m. unfold handshake_inv, phase.
    cbn [log emit snd in_flight trace]. rewrite Hfl, changes_app, Hch.
    rewrite changes_log. lia. }
  destruct (negb (status =? 0)); [apply Hlog |].
  destruct (read_model_attachment _ _) as [type | [mdl att]]; [apply Hlog |].
  destruct (resolve mdl att) as [[k found] |]; [| apply Hlog].
  cbn [snd]. rewrite submit_change_run. cbv zeta. cbn [snd].
  unfold handshake_inv, phase. cbn [log emit snd in_flight trace submitted].
  rewrite !changes_app, Hch, changes_log, changes_submit_change, Hfl.
  destruct (submit_urb_ret env (submitted s) =? 0).
  - cbn [complete change_urb app]. change (changes []) with 0%nat. lia.
  - rewrite changes_log. lia.
Qed.

(** The change handler submits nothing. *)
Lemma change_handler_inv (status : Z) (s : state) :
  in_flight s = None -> changes (trace s) = 1%nat ->
  let s' := snd (thrustmaster_change_handler status s) in
  handshake_inv s' /\ phase s' = 0%nat.
Proof.
  intros Hfl Hch s'. subst s'. rewrite change_handler_run.
  unfold handshake_inv, phase. cbn [snd in_flight trace].
  rewrite Hfl, changes_app, Hch.
  destruct (_ || _); rewrite changes_log; lia.
Qed.

(** The state after the completion function of [u] has run. *)
Lemma deliver_inv (s : state) (u : urb) :
  in_flight s = Some u -> handshake_inv s ->
  let s' := snd (complete_urb env u (snd (take_in_flight s))) in
  handshake_inv s' /\ (phase s' < phase s)%nat.
Proof.
  intros Hu Hinv s'. subst s'.
  unfold handshake_inv in Hinv. unfold phase at 2. rewrite Hu in *.
  unfold complete_urb.
  destruct (complete u).
  - unfold bind. cbn [update_wheel take_in_flight snd].
    match goal with
    | |- context [thrustmaster_model_handler env ?st ?s1] =>
        destruct (model_handler_inv st s1 eq_refl Hinv) as [H1 H2]
    end.
    split; [exact H1 | lia].
  - match goal with
    | |- context [thrustmaster_change_handler ?st ?s1] =>
        destruct (change_handler_inv st s1 eq_refl Hinv) as [H1 H2]
    end.
    split; [exact H1 | lia].
Qed.

Lemma completions_unfold (fuel : nat) (s : state) :
  snd (completions env (S fuel) s) =
  match in_flight s with
  | None => snd (take_in_flight s)
  | Some u =>
      snd (completions env fuel
             (snd (complete_urb env u (snd (take_in_flight s)))))
  end.
Proof.
  cbn [completions]. unfold bind at 1. cbn [take_in_flight fst snd].
  destruct (in_flight s) as [u |]; [| reflexivity].
  unfold bind. destruct (complete_urb env u _) as [[] s1]. reflexivity.
Qed.

(** The invariant holds after any number of completions. *)
Lemma completions_inv (fuel : nat) :
  forall s : state,
    handshake_inv s -> handshake_inv (snd (completions env fuel s)).
Proof.
  induction fuel as [| fuel IH]; intros s Hinv; [exact Hinv |].
  rewrite completions_unfold.
  destruct (in_flight s) as [u |] eqn:Hu.
  - apply IH. apply (deliver_inv s u Hu Hinv).
  - unfold handshake_inv in *. rewrite Hu in Hinv. exact Hinv.
Qed.

(** Fuel for as many completions as the phase counts brings the session
    to rest. *)
Lemma completions_rest (fuel : nat) :
  forall s : state,
    handshake_inv s -> (phase s <= fuel)%nat ->
    in_flight (snd (completions env fuel s)) = None.
Proof.
  induction fuel as [| fuel IH]; intros s Hinv Hphase.
  - unfold phase in Hphase. cbn.
    destruct (in_flight s) as [u |]; [| reflexivity].
    destruct (complete u); lia.
  - rewrite completions_unfold.
    destruct (in_flight s) as [u |] eqn:Hu; [| reflexivity].
    destruct (deliver_inv s u Hu Hinv) as [Hinv' Hlt].
    apply IH; [exact Hinv' | lia].
Qed.

(** With no model request in flight, completions add at most the line
    the change handler logs. *)
Lemma completions_tail (fuel : nat) (s : state) :
  (phase s <= 1)%nat ->
  exists t,
    trace (snd (completions env fuel s)) = trace s ++ t /\
    (t = [] \/ t = [change_completion_event (change_status env)]).
Proof.
  intros Hphase. unfold phase in Hphase.
  destruct fuel as [| fuel].
  - exists []. rewrite app_nil_r. split; [reflexivity | left; reflexivity].
  - rewrite completions_unfold.
    destruct (in_flight s) as [u |] eqn:Hu.
    + unfold complete_urb.
      destruct (complete u); [lia |].
      rewrite change_handler_run. cbn [snd take_in_flight].
      exists [change_completion_event (change_status env)].
      split; [| right; reflexivity].
      destruct fuel as [| fuel]; [reflexivity |].
      rewrite completions_unfold. reflexivity.
    + exists []. rewrite app_nil_r. split; [reflexivity | left; reflexivity].
Qed.

Lemma session_state (fuel : nat) :
  snd (session env fuel initial_state)
  = snd (completions env fuel (snd (thrustmaster_probe env initial_state))).
Proof.
  unfold session, bind.
  destruct (thrustmaster_probe env initial_state) as [r s1]. cbn [snd].
  destruct (completions env fuel s1) as [[] s2]. reflexivity.
Qed.

(** Two completions are all a session can have. *)
Lemma session_rests (fuel : nat) :
  (2 <= fuel)%nat -> in_flight (snd (session env fuel initial_state)) = None.
Proof.
  intros Hfuel. rewrite session_state.
  apply completions_rest; [apply probe_establishes_inv |].
  unfold phase. destruct (in_flight _) as [u |]; [| lia].
  destruct (complete u); lia.
Qed.

End Handshake.


(** C4. When the completion function of the change request runs, a status
    of 0, -EPROTO or -EPIPE is logged as success at info level; any other
    status is logged as a failed change URB, with the status, at warning
    level. Either way the handler submits nothing, leaves nothing in
    flight, and once the completion of a change request has been
    delivered the session is at rest. *)
Theorem change_completion_status (env : usb_env) (status : Z) (s : state) :
  let s' := snd (thrustmaster_change_handler status s) in
  (status = 0 \/ status = - EPROTO \/ status = - EPIPE ->
   trace s' = trace s ++ [Log dev_info wheel_initialized]) /\
  (status <> 0 -> status <> - EPROTO -> status <> - EPIPE ->
   trace s' = trace s ++ [Log dev_warn (change_urb_failed status)]) /\
  wheel s' = wheel s /\ submitted s' = submitted s /\
  in_flight s' = in_flight s /\
  (forall fuel : nat,
     in_flight s = Some change_urb -> change_status env = status ->
     let s'' := snd (completions env (S fuel) s) in
     trace s'' = trace s' /\ submitted s'' = submitted s /\
     in_flight s'' = None).
Proof.
  intros s'. subst s'. rewrite change_handler_run.
  cbn [snd trace wheel submitted in_flight].
  split; [| split; [| split; [| split; [| split]]]]; try reflexivity.
  - intros [-> | [-> | ->]]; reflexivity.
  - intros H0 Hproto Hpipe.
    destruct (Z.eqb_spec status 0); [contradiction |].
    destruct (Z.eqb_spec status (- EPROTO)); [contradiction |].
    destruct (Z.eqb_spec status (- EPIPE)); [contradiction |].
    reflexivity.
  - intros fuel Hfl Hst.
    rewrite completions_unfold, Hfl. unfold complete_urb.
    cbn [complete change_urb]. rewrite Hst, change_handler_run.
    cbn [snd take_in_flight].
    destruct fuel as [| fuel]; [| rewrite completions_unfold];
      repeat split.
Qed.

Lemma product_is_not_b69c (e : endianness) (id : byte * byte) :
  id <> (x9c, xb6) ->
  (le16_to_cpu e (load16 e (fst id) (snd id)) =? 0xb69c) = false.
Proof.
  intros Hid. destruct (_ =? _) eqn:Hsw; [| reflexivity].
  apply product_is_b69c in Hsw. contradiction.
Qed.

Lemma probe_allocations (env : usb_env) :
  probe_allocations_ok env = true ->
  alloc_ok env res_urb = true /\ alloc_ok env res_model_request = true /\
  alloc_ok env res_response = true /\ alloc_ok env res_change_request = true.
Proof.
  unfold probe_allocations_ok. intros H.
  repeat (apply andb_prop in H; destruct H as [H ?]). tauto.
Qed.

(** The 0xb69c case of thrustmaster_probe. *)
Lemma probe_identity_a (env : usb_env) :
  idProduct env = (x9c, xb6) ->
  let s1 := snd (thrustmaster_probe env initial_state) in
  (phase s1 <= 1)%nat /\
  filter is_query (trace s1) = [] /\
  interrupt_packets (trace s1) = [] /\
  filter from_model_handler (trace s1) = [] /\
  (probe_allocations_ok env = true ->
   bus_traffic (trace s1)
   = [SubmitUrb change_urb
        (Some (set_wValue (cpu_to_le16 (host env) 0x000b) change_request))
        (submit_urb_ret env 0)] /\
   switch_values_on_wire (host env) (trace s1) = [(0x0b, 0x00)] /\
   fst (thrustmaster_probe env initial_state) = submit_urb_ret env 0) /\
  (probe_allocations_ok env = false -> bus_traffic (trace s1) = []).
Proof.
  intros Hid. apply product_is_b69c with (e := host env) in Hid.
  unfold probe_allocations_ok, thrustmaster_probe, bind. run.
  repeat (branch; run); try discriminate;
    unfold phase; cbn; repeat split; auto; try discriminate;
    destruct (host env); reflexivity.
Qed.

(** C5. With product id 0xb69c the session never submits the model
    request, sends no interrupt packet and never runs the model handler:
    with its four allocations done, the one thing thrustmaster_probe
    puts on the bus is the change request with switch value 0x000b
    (bytes 0b 00 on the wire), and it returns what usb_submit_urb
    returned. Without the allocations nothing goes on the bus. *)
Theorem identity_a_skips_query (env : usb_env) (fuel : nat) :
  idProduct env = (x9c, xb6) ->
  let s' := snd (session env fuel initial_state) in
  filter is_query (trace s') = [] /\
  interrupt_packets (trace s') = [] /\
  filter from_model_handler (trace s') = [] /\
  (probe_allocations_ok env = true ->
   bus_traffic (trace s')
   = [SubmitUrb change_urb
        (Some (set_wValue (cpu_to_le16 (host env) 0x000b) change_request))
        (submit_urb_ret env 0)] /\
   switch_values_on_wire (host env) (trace s') = [(0x0b, 0x00)] /\
   fst (session env fuel initial_state) = submit_urb_ret env 0) /\
  (probe_allocations_ok env = false -> bus_traffic (trace s') = []).
Proof.
  intros Hid s'. subst s'.
  destruct (probe_identity_a env Hid)
    as (Hphase & Hq & Hint & Hmh & Hok & Hfail).
  assert (Hfst : fst (session env fuel initial_state)
                 = fst (thrustmaster_probe env initial_state)).
  { unfold session, bind.
    destruct (thrustmaster_probe env initial_state) as [r s1].
    destruct (completions env fuel s1) as [[] s2]. reflexivity. }
  rewrite session_state, Hfst.
  destruct (completions_tail env fuel _ Hphase) as (t & Htrace & Ht).
  rewrite Htrace.
  assert (Hquiet : filter is_query t = [] /\ interrupt_packets t = [] /\
                   filter from_model_handler t = [] /\ bus_traffic t = [] /\
                   switch_values_on_wire (host env) t = []).
  { destruct Ht as [-> | ->]; [repeat split |].
    unfold change_completion_event. destruct (_ || _); repeat split. }
  destruct Hquiet as (Hq' & Hint' & Hmh' & Hbus' & Hsw').
  unfold interrupt_packets, bus_traffic, switch_values_on_wire in *.
  rewrite !filter_app, !flat_map_app.
  rewrite Hq, Hq', Hint, Hint', Hmh, Hmh', Hbus', Hsw', !app_nil_r.
  split; [reflexivity |]. split; [reflexivity |]. split; [reflexivity |].
  split; [exact Hok | exact Hfail].
Qed.

Lemma sent_until_failure_le (rets : list Z) :
  (sent_until_failure rets <= List.length rets)%nat.
Proof.
  induction rets as [| r rets IH]; simpl; [lia |].
  destruct (r =? 0); lia.
Qed.

(** Every packet but the last one sent was acknowledged. *)
Lemma sent_until_failure_acked (rets : list Z) :
  forall i : nat,
    (S i < sent_until_failure rets)%nat -> nth i rets 1 = 0.
Proof.
  induction rets as [| r rets IH]; simpl; intros i Hi; [lia |].
  destruct (Z.eqb_spec r 0) as [-> | Hr]; [| lia].
  destruct i as [| i]; [reflexivity |]. apply IH. lia.
Qed.

Lemma sent_until_failure_all (rets : list Z) :
  (forall i, (i < List.length rets)%nat -> nth i rets 1 = 0) ->
  sent_until_failure rets = List.length rets.
Proof.
  induction rets as [| r rets IH]; simpl; intros Hall; [reflexivity |].
  rewrite (Hall 0%nat ltac:(lia)) . simpl. f_equal. apply IH.
  intros i Hi. apply (Hall (S i)). lia.
Qed.

(** C8. Away from product id 0xb69c, and with its four allocations done,
    thrustmaster_probe sends the packets of setup_arr in their order,
    each handed to usb_interrupt_msg only after the one before it
    returned 0, and stops at the first that fails; it sends none when
    the send buffer cannot be allocated or the interface has fewer than
    two endpoints, and all five when nothing fails. Whatever happened to
    the packets, the next thing on the bus is the model request. *)
Theorem interrupts_then_query (env : usb_env) :
  idProduct env <> (x9c, xb6) -> probe_allocations_ok env = true ->
  let s1 := snd (thrustmaster_probe env initial_state) in
  (packets_attempted env <= 5)%nat /\
  interrupt_packets (trace s1) = firstn (packets_attempted env) setup_arr /\
  bus_traffic (trace s1)
  = map (interrupt_event env) (seq 0 (packets_attempted env))
    ++ [SubmitUrb model_urb (Some (model_request (host env)))
          (submit_urb_ret env 0)] /\
  (forall i, (S i < packets_attempted env)%nat -> interrupt_msg_ret env i = 0)
  /\
  (alloc_ok env res_send_buf = false \/ bNumEndpoints env < 2 ->
   packets_attempted env = 0%nat) /\
  (alloc_ok env res_send_buf = true -> 2 <= bNumEndpoints env ->
   (forall i, (i < 5)%nat -> interrupt_msg_ret env i = 0) ->
   packets_attempted env = 5%nat).
Proof.
  intros Hid Halloc s1. subst s1.
  apply product_is_not_b69c with (e := host env) in Hid.
  destruct (probe_allocations env Halloc) as (A1 & A2 & A3 & A4).
  split; [| split; [| split; [| split; [| split]]]].
  - unfold packets_attempted.
    destruct (negb _); [lia |]. destruct (_ <? _); [lia |].
    etransitivity; [apply sent_until_failure_le |].
    rewrite length_map, length_seq. reflexivity.
  - unfold packets_attempted, thrustmaster_probe, thrustmaster_interrupts,
      bind.
    run. rewrite A1, A2, A3, A4. run. rewrite Hid. run.
    repeat (branch; run); reflexivity.
  - unfold packets_attempted, thrustmaster_probe, thrustmaster_interrupts,
      bind.
    run. rewrite A1, A2, A3, A4. run. rewrite Hid. run.
    repeat (branch; run); reflexivity.
  - unfold packets_attempted. intros i Hi.
    destruct (negb _); [lia |]. destruct (_ <? _); [lia |].
    pose proof (sent_until_failure_le
                  (map (interrupt_msg_ret env) (seq 0 (List.length setup_arr))))
      as Hle.
    rewrite length_map, length_seq in Hle.
    assert (Hb : (i < List.length setup_arr)%nat) by lia.
    apply sent_until_failure_acked in Hi.
    rewrite (nth_indep _ 1 (interrupt_msg_ret env 0)) in Hi
      by (rewrite length_map, length_seq; exact Hb).
    rewrite map_nth, seq_nth in Hi by exact Hb. exact Hi.
  - unfold packets_attempted. intros [-> | Hep]; [reflexivity |].
    destruct (negb _); [reflexivity |].
    replace (bNumEndpoints env <? 2) with true
      by (symmetry; apply Z.ltb_lt; exact Hep).
    reflexivity.
  - unfold packets_attempted. intros -> Hep Hall.
    replace (bNumEndpoints env <? 2) with false
      by (symmetry; apply Z.ltb_ge; exact Hep).
    cbn [negb]. rewrite sent_until_failure_all;
      [rewrite length_map, length_seq; reflexivity |].
    rewrite length_map, length_seq. intros i Hi.
    rewrite (nth_indep _ 1 (interrupt_msg_ret env 0))
      by (rewrite length_map, length_seq; exact Hi).
    rewrite map_nth, seq_nth by exact Hi. apply Hall. exact Hi.
Qed.

Lemma submissions_app (t1 t2 : list event) :
  submissions (t1 ++ t2) = submissions t1 ++ submissions t2.
Proof. apply filter_app. Qed.

Lemma change_completion_event_quiet (status : Z) :
  changes [change_completion_event status] = 0%nat /\
  submissions [change_completion_event status] = [].
Proof.
  unfold change_completion_event. destruct (_ || _); split; reflexivity.
Qed.

(** Completions delivered with no model request in flight submit
    nothing. *)
Lemma completions_quiet (env : usb_env) (fuel : nat) (s : state) :
  (phase s <= 1)%nat ->
  changes (trace (snd (completions env fuel s))) = changes (trace s) /\
  submissions (trace (snd (completions env fuel s))) = submissions (trace s).
Proof.
  intros Hphase.
  destruct (completions_tail env fuel s Hphase) as (t & -> & [-> | ->]).
  - rewrite app_nil_r. split; reflexivity.
  - rewrite changes_app, submissions_app.
    destruct (change_completion_event_quiet (change_status env)) as [-> ->].
    rewrite app_nil_r. split; [lia | reflexivity].
Qed.

(** thrustmaster_probe away from the 0xb69c case: no change request, and
    either nothing in flight or the model request, submitted first. *)
Lemma probe_default (env : usb_env) :
  idProduct env <> (x9c, xb6) ->
  let s1 := snd (thrustmaster_probe env initial_state) in
  changes (trace s1) = 0%nat /\
  (in_flight s1 = None \/
   in_flight s1 = Some model_urb /\
   tw_response (wheel s1) = zeroed_response /\
   tw_change_request (wheel s1) = Some change_request /\
   submitted s1 = 1%nat /\
   submissions (trace s1)
   = [SubmitUrb model_urb (Some (model_request (host env))) 0]).
Proof.
  intros Hid. apply product_is_not_b69c with (e := host env) in Hid.
  unfold thrustmaster_probe, thrustmaster_interrupts, bind. run.
  repeat (branch; run); try discriminate;
    (split; [reflexivity |]);
    first [left; reflexivity | right; repeat split].
  all: match goal with
       | H : (submit_urb_ret _ 0 =? 0) = true |- _ =>
           apply Z.eqb_eq in H; rewrite H
       end; reflexivity.
Qed.

(** C6. In a session the change request is submitted at most once,
    however many completions are delivered. A model handler that sees a
    status other than 0, a response type it does not know or a model that
    is not in the table submits nothing and leaves nothing in flight.
    Away from product id 0xb69c a session that submitted the change
    request submitted the model request before it, saw it complete with
    status 0, and found an entry for the pair read from the response; the
    change request carries that entry's switch value. *)
Theorem switch_submitted_at_most_once (env : usb_env) (fuel : nat) :
  let s' := snd (session env fuel initial_state) in
  (changes (trace s') <= 1)%nat /\
  (forall (status : Z) (s : state),
     status <> 0 \/
     (exists type,
        read_model_attachment (host env) (tw_response (wheel s)) = inl type)
     \/
     (exists mdl att,
        read_model_attachment (host env) (tw_response (wheel s))
        = inr (mdl, att) /\ resolve mdl att = None) ->
     let s1 := snd (thrustmaster_model_handler env status s) in
     changes (trace s1) = changes (trace s) /\
     submitted s1 = submitted s /\ in_flight s1 = in_flight s) /\
  (idProduct env <> (x9c, xb6) -> changes (trace s') = 1%nat ->
   query_status env = 0 /\
   exists (mdl att : byte) (k : nat) (found : bool),
     read_model_attachment (host env)
       (receive (query_reply env) zeroed_response) = inr (mdl, att) /\
     resolve mdl att = Some (k, found) /\
     submissions (trace s')
     = [SubmitUrb model_urb (Some (model_request (host env))) 0;
        SubmitUrb change_urb
          (Some (set_wValue
                   (cpu_to_le16 (host env) (switch_value (entry k)))
                   change_request))
          (submit_urb_ret env 1)]).
Proof.
  intros s'. split; [| split].
  - subst s'. rewrite session_state.
    pose proof (completions_inv env fuel _ (probe_establishes_inv env)) as H.
    unfold handshake_inv in H.
    destruct (in_flight _) as [u |]; [destruct (complete u) |]; lia.
  - intros status s Hfail s1.
    destruct (model_handler_gives_up env status s Hfail)
      as ((m & Htrace) & _ & Hsub & Hfl).
    fold s1 in Htrace, Hsub, Hfl.
    rewrite Htrace, changes_app, changes_log.
    repeat split; try assumption. lia.
  - subst s'. intros Hid. rewrite session_state.
    destruct (probe_default env Hid)
      as (Hch & [Hfl | (Hfl & Hresp & Hcr & Hsub & Hsubm)]).
    + destruct (completions_quiet env fuel
                  (snd (thrustmaster_probe env initial_state))) as [-> _];
        [unfold phase; rewrite Hfl; lia | lia].
    + destruct fuel as [| fuel]; [cbn [completions ret snd]; lia |].
      rewrite completions_unfold, Hfl.
      unfold complete_urb. cbn [complete model_urb].
      unfold bind. cbn [update_wheel take_in_flight snd].
      rewrite model_handler_run.
      cbn [wheel with_response tw_response]. rewrite Hresp.
      assert (Hquiet : forall l m s0,
                in_flight s0 = None -> changes (trace s0) = 0%nat ->
                changes (trace (snd (completions env fuel (snd (log l m s0)))))
                <> 1%nat).
      { intros l m s0 Hfl0 Hch0.
        destruct (completions_quiet env fuel (snd (log l m s0))) as [-> _].
        - unfold phase. cbn [log emit snd in_flight]. rewrite Hfl0. lia.
        - cbn [log emit snd trace]. rewrite changes_app, Hch0, changes_log.
          lia. }
      destruct (Z.eqb_spec (query_status env) 0) as [Hst | Hst]; cbn [negb];
        [| intros Hone; exfalso; revert Hone;
           apply Hquiet; [reflexivity | exact Hch]].
      destruct (read_model_attachment _ _) as [type | [mdl att]] eqn:Hread;
        [intros Hone; exfalso; revert Hone;
         apply Hquiet; [reflexivity | exact Hch] |].
      destruct (resolve mdl att) as [[k found] |] eqn:Hres;
        [| intros Hone; exfalso; revert Hone;
           apply Hquiet; [reflexivity | exact Hch]].
      intros _. split; [exact Hst |].
      exists mdl, att, k, found.
      split; [reflexivity |]. split; [exact Hres |].
      cbn [snd]. rewrite submit_change_run. cbv zeta. cbn [snd].
      match goal with
      | |- submissions (trace (snd (completions env fuel ?s3))) = _ =>
          destruct (completions_quiet env fuel s3) as [_ ->]
      end.
      * unfold phase. cbn [in_flight].
        destruct (_ =? 0);
          cbn [complete change_urb log emit snd in_flight]; lia.
      * cbn [log emit snd trace wheel submitted tw_change_request
             with_response].
        rewrite Hcr, Hsub, !submissions_app, Hsubm.
        destruct (_ =? 0); reflexivity.
Qed.

(** ** The theorems at work on the devices *)

Example resolve_t300rs : resolve x02 x06 = Some (4%nat, true).
Proof. reflexivity. Qed.

Example resolve_t300rs_unknown_attachment :
  resolve x02 x01 = Some (1%nat, false).
Proof. reflexivity. Qed.

Example resolve_tmx : resolve x04 x07 = None.
Proof. reflexivity. Qed.

Example session_t300rs :
  switch_values_on_wire LittleEndian
    (trace (snd (session env_t300rs 2 initial_state))) = [(0x05, 0x00)] /\
  filter is_log (trace (snd (session env_t300rs 2 initial_state)))
  = [Log dev_info (wheel_is x02 x06 "Thrustmaster T300RS" true);
     Log dev_info wheel_initialized].
Proof. split; reflexivity. Qed.

Lemma resolve_fallback_or_unknown_witness :
  In x02 (map model tm_wheels_infos) /\
  ~ In x01 (map attachment (run_from tm_wheels_infos x02 1)) /\
  resolve x02 x01 = Some (1%nat, false) /\
  read_model_attachment (host env_t300rs)
    (tw_response (wheel answered_unknown_attachment)) = inr (x02, x01) /\
  trace (snd (thrustmaster_model_handler env_t300rs 0
                answered_unknown_attachment))
  = [Log dev_info
       (wheel_is x02 x01 "Thrustmaster T300RS (Missing Attachment)" false);
     SubmitUrb change_urb (Some (set_wValue 0x0005 change_request)) 0].
Proof.
  assert (Hin : In x02 (map model tm_wheels_infos))
    by (simpl; tauto).
  assert (Hnot : ~ In x01 (map attachment (run_from tm_wheels_infos x02 1)))
    by (simpl; intros [H | [H | [H | [H | [H | []]]]]]; discriminate H).
  split; [exact Hin |]. split; [exact Hnot |].
  split.
  - destruct (proj1 (resolve_fallback_or_unknown x02 x01) Hin)
      as (k & Hk & _ & _ & _ & Hfallback).
    injection Hk as <-. exact (Hfallback Hnot).
  - split; [reflexivity |].
    exact (proj1 (proj2 (proj2 (proj2 (resolve_fallback_or_unknown x02 x01))))
             env_t300rs answered_unknown_attachment 1%nat
             eq_refl eq_refl Hnot).
Defined.

Lemma change_completion_status_witness :
  (- EPROTO = 0 \/ - EPROTO = - EPROTO \/ - EPROTO = - EPIPE) /\
  trace (snd (thrustmaster_change_handler (- EPROTO) initial_state))
  = trace initial_state ++ [Log dev_info wheel_initialized].
Proof.
  split; [right; left; reflexivity |].
  apply (change_completion_status env_t300rs (- EPROTO) initial_state).
  right; left; reflexivity.
Defined.

Lemma identity_a_skips_query_witness :
  idProduct env_t128 = (x9c, xb6) /\
  probe_allocations_ok env_t128 = true /\
  bus_traffic (trace (snd (session env_t128 2 initial_state)))
  = [SubmitUrb change_urb
       (Some (set_wValue (cpu_to_le16 (host env_t128) 0x000b) change_request))
       (submit_urb_ret env_t128 0)].
Proof.
  split; [reflexivity |]. split; [reflexivity |].
  apply (identity_a_skips_query env_t128 2 eq_refl). reflexivity.
Defined.

Lemma switch_submitted_at_most_once_witness :
  idProduct env_t300rs <> (x9c, xb6) /\
  changes (trace (snd (session env_t300rs 2 initial_state))) = 1%nat /\
  query_status env_t300rs = 0.
Proof.
  assert (Hid : idProduct env_t300rs <> (x9c, xb6))
    by (intros H; discriminate H).
  split; [exact Hid |]. split; [reflexivity |].
  apply (switch_submitted_at_most_once env_t300rs 2);
    [exact Hid | reflexivity].
Defined.

Lemma response_type_selects_layout_witness :
  u8 (read_u8 (query_reply env_t300rs) 0)
  + 256 * u8 (read_u8 (query_reply env_t300rs) 1) = 0x0049 /\
  read_model_attachment BigEndian (query_reply env_t300rs)
  = inr (data_field data_a "model" (query_reply env_t300rs),
         data_field data_a "attachment" (query_reply env_t300rs)).
Proof.
  split; [reflexivity |].
  exact (proj1 (response_type_selects_layout BigEndian
                  (query_reply env_t300rs)) eq_refl).
Defined.

Lemma interrupts_then_query_witness :
  idProduct env_t300rs <> (x9c, xb6) /\
  probe_allocations_ok env_t300rs = true /\
  interrupt_packets (trace (snd (thrustmaster_probe env_t300rs initial_state)))
  = firstn (packets_attempted env_t300rs) setup_arr.
Proof.
  assert (Hid : idProduct env_t300rs <> (x9c, xb6))
    by (intros H; discriminate H).
  split; [exact Hid |]. split; [reflexivity |].
  apply (interrupts_then_query env_t300rs Hid eq_refl).
Defined.

Lemma layouts_share_offsets_witness :
  read_model_attachment LittleEndian
    [x47; x00; x00; x00; x00; x00; x06; x02]
  = read_model_attachment LittleEndian
      [x49; x00; x00; x00; x00; x00; x06; x02].
Proof.
  apply (layouts_share_offsets LittleEndian
           [x49; x00; x00; x00; x00; x00; x06; x02]
           [x47; x00; x00; x00; x00; x00; x06; x02]);
    reflexivity.
Defined.

Lemma resolved_entry_has_decoded_model_witness :
  resolve x02 x01 = Some (1%nat, false) /\
  (1 < tm_wheels_infos_length)%nat /\ model (entry 1) = x02.
Proof.
  split; [reflexivity |].
  apply (resolved_entry_has_decoded_model x02 x01 1 false). reflexivity.
Defined.

(** * More of the driver *)

(** ** The search on any table *)

Lemma find_attachment_flag (tbl : list tm_wheel_info) (len : nat)
  (mdl att : byte) (i twi : nat) (found : bool) :
  (found = true <-> attachment (Lookup.at_index tbl twi) = att) ->
  snd (Lookup.find_attachment tbl len mdl att i twi found) = true
  <-> attachment
        (Lookup.at_index tbl
           (fst (Lookup.find_attachment tbl len mdl att i twi found))) = att.
Proof.
  funelim (Lookup.find_attachment tbl len mdl att i twi found); intros Hflag.
  - destruct (Byte.eqb (attachment (Lookup.at_index tbl i)) att) eqn:Hatt.
    + match goal with IH : _ -> _ <-> _ |- _ => apply IH end.
      split; [intros _; apply Byte.byte_dec_bl; exact Hatt | reflexivity].
    + auto.
  - exact Hflag.
Qed.

(** X1. On any table, also an empty one, the two loops of
    thrustmaster_model_handler return what the described search returns:
    nothing without an entry of the model, else the first entry of the
    attachment in the run of the model's first entry, else that first
    entry with attachment_found = 0. *)
Theorem loops_compute_described_search
  (tbl : list tm_wheel_info) (mdl att : byte) :
  Lookup.resolve tbl (List.length tbl) mdl att
  = resolve_described tbl mdl att.
Proof.
  apply LookupFacts.resolve_refines. reflexivity.
Qed.

(** X2. On a table whose entries of equal model are contiguous and whose
    (model, attachment) pairs are all different, the loops find every
    entry by its own pair. *)
Theorem loops_exact_on_ordered_table (tbl : list tm_wheel_info) (k : nat) :
  contiguous_models tbl ->
  NoDup (map (fun e => (model e, attachment e)) tbl) ->
  (k < List.length tbl)%nat ->
  Lookup.resolve tbl (List.length tbl)
    (model (Lookup.at_index tbl k)) (attachment (Lookup.at_index tbl k))
  = Some (k, true).
Proof.
  intros Hcont Hnodup Hk.
  apply (LookupFacts.resolve_exact_when_contiguous tbl (List.length tbl)
           _ _ eq_refl k Hcont Hnodup Hk); reflexivity.
Qed.

(** X3. attachment_found, as logged, is 1 exactly when the entry the
    loops settle on has the attachment that was searched for. *)
Theorem attachment_found_iff_attachment_matches
  (tbl : list tm_wheel_info) (len : nat) (mdl att : byte)
  (k : nat) (found : bool) :
  Lookup.resolve tbl len mdl att = Some (k, found) ->
  found = true <-> attachment (Lookup.at_index tbl k) = att.
Proof.
  unfold Lookup.resolve.
  destruct (Lookup.find_model tbl len mdl 0 None) as [i [first |]];
    [| discriminate].
  intros Hres. injection Hres as Hres.
  pose proof (find_attachment_flag tbl len mdl att i first
                (Byte.eqb (attachment (Lookup.at_index tbl first)) att))
    as Hflag.
  rewrite Hres in Hflag. cbn [fst snd] in Hflag. apply Hflag.
  split; [apply Byte.byte_dec_bl | apply Byte.byte_dec_lb].
Qed.

(** X4. On the table of known wheels the attachment never changes the
    switch value: whatever entry the search returns for a model has the
    switch value of the first entry of that model. *)
Theorem switch_value_depends_on_model_only
  (mdl att : byte) (k : nat) (found : bool) :
  resolve mdl att = Some (k, found) ->
  exists c : nat,
    candidate tm_wheels_infos mdl = Some c /\
    switch_value (entry k) = switch_value (entry c).
Proof.
  rewrite resolve_as_described. unfold resolve_described.
  destruct (candidate tm_wheels_infos mdl) as [c |] eqn:Hc; [| discriminate].
  intros Hres. exists c. split; [reflexivity |].
  destruct (LookupFacts.candidate_first _ _ mdl tm_wheels_infos_length_ok c Hc)
    as (Hlt & Hm & _).
  subst mdl. unfold tm_wheels_infos_length in Hlt.
  do 8 (destruct c as [| c];
        [cbn in Hres;
         repeat match type of Hres with
                | context [if ?b then _ else _] => destruct b
                end;
         injection Hres as <- _; reflexivity |]).
  lia.
Qed.

(** ** Bytes on the wire and in the response buffer *)

Lemma swab16_swab16 (x : Z) : 0 <= x < 65536 -> swab16 (swab16 x) = x.
Proof.
  intros Hx.
  assert (Hdiv : 0 <= x / 256 < 256)
    by (split; [apply Z.div_pos | apply Z.div_lt_upper_bound]; lia).
  pose proof (Z.mod_pos_bound x 256 ltac:(lia)) as Hmod.
  pose proof (Z.div_mod x 256 ltac:(lia)) as Hdm.
  transitivity (swab16 (swab16 (256 * (x / 256) + x mod 256)));
    [do 2 f_equal; lia |].
  rewrite !swab16_bytes by lia. lia.
Qed.

(** X5. thrustmaster_submit_change puts a 16-bit switch value on the
    wire low byte first on a host of either byte order, leaves the other
    fields of the change request as they were, returns what
    usb_submit_urb returned, and logs an error exactly when that is not
    0; the URB is in flight afterwards exactly when it is 0. *)
Theorem submit_change_is_little_endian
  (env : usb_env) (v : Z) (s : state) (rq : usb_ctrlrequest) :
  0 <= v < 65536 ->
  tw_change_request (wheel s) = Some rq ->
  in_flight s = None ->
  let r := fst (thrustmaster_submit_change env v s) in
  let s' := snd (thrustmaster_submit_change env v s) in
  r = submit_urb_ret env (submitted s) /\
  switch_values_on_wire (host env) (trace s')
  = switch_values_on_wire (host env) (trace s) ++ [(v mod 256, v / 256)] /\
  le16_to_cpu (host env) (cpu_to_le16 (host env) v) = v /\
  submissions (trace s')
  = submissions (trace s)
    ++ [SubmitUrb change_urb
          (Some {| bRequestType := bRequestType rq; bRequest := bRequest rq;
                   wValue := cpu_to_le16 (host env) v;
                   wIndex := wIndex rq; wLength := wLength rq |}) r] /\
  logged_at dev_err (trace s')
  = logged_at dev_err (trace s)
    ++ (if r =? 0 then [] else [change_submit_error r]) /\
  (in_flight s' = Some change_urb <-> r = 0) /\
  (in_flight s' = None <-> r <> 0).
Proof.
  intros Hv Hrq Hfl r s'. subst r s'.
  rewrite submit_change_run. cbv zeta. cbn [fst snd trace in_flight].
  rewrite Hrq, Hfl. cbn [option_map].
  unfold switch_values_on_wire, submissions, logged_at.
  rewrite !flat_map_app, !filter_app.
  split; [reflexivity |]. split; [| split; [| split; [| split]]].
  - cbn [flat_map complete change_urb wValue set_wValue app].
    rewrite store16_cpu_to_le16 by exact Hv.
    destruct (_ =? 0); cbn; rewrite ?app_nil_r; reflexivity.
  - destruct (host env); [reflexivity | apply swab16_swab16; exact Hv].
  - destruct (_ =? 0); cbn; rewrite ?app_nil_r; reflexivity.
  - destruct (_ =? 0); cbn; rewrite ?app_nil_r; reflexivity.
  - destruct (Z.eqb_spec (submit_urb_ret env (submitted s)) 0) as [Hr | Hr];
      split; split; intros H; try reflexivity; try discriminate;
      try contradiction; try exact Hr.
Qed.

(** X6. The pair read from a response does not depend on the byte order
    of the host. The type that is logged when it is not recognised does:
    it is the little-endian value of the first two bytes on a
    little-endian host and that value byte-swapped on a big-endian one. *)
Theorem decoding_is_host_independent (buf : list byte) :
  (forall p : byte * byte,
     read_model_attachment LittleEndian buf = inr p
     <-> read_model_attachment BigEndian buf = inr p) /\
  (forall t : Z,
     read_model_attachment LittleEndian buf = inl t ->
     t = u8 (read_u8 buf 0) + 256 * u8 (read_u8 buf 1) /\
     read_model_attachment BigEndian buf = inl (swab16 t)).
Proof.
  rewrite !read_model_attachment_tag.
  pose proof (u8_range (read_u8 buf 0)). pose proof (u8_range (read_u8 buf 1)).
  split.
  - intros p. destruct (_ =? 0x49); [reflexivity |].
    destruct (_ =? 0x47); [reflexivity |].
    split; discriminate.
  - intros t. destruct (_ =? 0x49); [discriminate |].
    destruct (_ =? 0x47); [discriminate |].
    intros Ht.
    assert (Ht' : response_type LittleEndian buf = t) by congruence.
    clear Ht. subst t.
    unfold response_type, read_u16, type_offset, load16.
    split; [reflexivity |].
    f_equal. symmetry.
    replace (u8 (read_u8 buf 0) + 256 * u8 (read_u8 buf 1))
      with (256 * u8 (read_u8 buf 1) + u8 (read_u8 buf 0)) by lia.
    apply swab16_bytes; lia.
Qed.

Lemma nth_zeroed_response (off : nat) : nth off zeroed_response x00 = x00.
Proof.
  unfold zeroed_response. apply nth_repeat.
Qed.

Lemma read_received (reply : list byte) (off : nat) :
  ((off < 16)%nat ->
   read_u8 (receive reply zeroed_response) off = nth off reply x00) /\
  ((16 <= off)%nat -> read_u8 (receive reply zeroed_response) off = x00).
Proof.
  unfold read_u8, receive. split.
  - intros Hoff. rewrite nth_firstn.
    replace (off <? List.length zeroed_response)%nat with true
      by (symmetry; apply Nat.ltb_lt; exact Hoff).
    destruct (Nat.lt_ge_cases off (List.length reply)) as [Hlt | Hge].
    + apply app_nth1. exact Hlt.
    + rewrite app_nth2 by exact Hge.
      rewrite nth_skipn, nth_zeroed_response.
      symmetry. apply nth_overflow. exact Hge.
  - intros Hoff. apply nth_overflow.
    rewrite length_firstn. change (List.length zeroed_response) with 16%nat.
    lia.
Qed.

(** X7. The model handler does not look at how many bytes arrived. An
    answer of at most six bytes that starts with a known type (or is the
    single byte 0x49 or 0x47) is read as model 0x00, attachment 0x00:
    the wheel is logged as a T500RS without its attachment found and is
    sent switch value 0x0002. *)
Theorem short_answer_is_a_t500rs
  (env : usb_env) (s : state) (reply : list byte) (rq : usb_ctrlrequest) :
  (List.length reply <= 6)%nat ->
  nth 0 reply x00 = x49 \/ nth 0 reply x00 = x47 ->
  nth 1 reply x00 = x00 ->
  tw_response (wheel s) = receive reply zeroed_response ->
  tw_change_request (wheel s) = Some rq ->
  let s' := snd (thrustmaster_model_handler env 0 s) in
  read_model_attachment (host env) (tw_response (wheel s)) = inr (x00, x00) /\
  logged_at dev_info (trace s')
  = logged_at dev_info (trace s)
    ++ [wheel_is x00 x00 "Thrustmaster T500RS" false] /\
  switch_values_on_wire (host env) (trace s')
  = switch_values_on_wire (host env) (trace s) ++ [(0x02, 0x00)].
Proof.
  intros Hlen Htag Hzero Hresp Hrq s'. subst s'.
  assert (Hread : read_model_attachment (host env) (tw_response (wheel s))
                  = inr (x00, x00)).
  { rewrite Hresp, read_model_attachment_tag.
    destruct (read_received reply 0) as (H0 & _).
    destruct (read_received reply 1) as (H1 & _).
    destruct (read_received reply 6) as (H6 & _).
    destruct (read_received reply 7) as (H7 & _).
    rewrite H0, H1, H6, H7 by lia. rewrite Hzero.
    rewrite (nth_overflow reply x00 (n := 6)) by lia.
    rewrite (nth_overflow reply x00 (n := 7)) by lia.
    destruct Htag as [-> | ->]; reflexivity. }
  split; [exact Hread |].
  rewrite model_handler_run. cbn [negb Z.eqb]. rewrite Hread.
  change (resolve x00 x00) with (Some (0%nat, false)).
  cbv beta iota. rewrite submit_change_run. cbv zeta.
  cbn [snd log emit trace wheel tw_change_request]. rewrite Hrq.
  unfold logged_at, switch_values_on_wire. rewrite !flat_map_app.
  split.
  - destruct (_ =? 0); cbn; rewrite ?app_nil_r; reflexivity.
  - cbn [flat_map option_map complete change_urb wValue set_wValue app].
    change (switch_value (entry 0)) with 2.
    rewrite store16_cpu_to_le16 by lia.
    destruct (_ =? 0); cbn; rewrite ?app_nil_r; reflexivity.
Qed.

(** ** The interrupt packets and the probe *)

(** thrustmaster_interrupts adds to the trace and touches nothing else;
    what it adds depends on the device alone. *)
Lemma interrupts_run (env : usb_env) (s : state) :
  thrustmaster_interrupts env s
  = (tt, {| wheel := wheel s;
            trace := trace s
                     ++ trace (snd (thrustmaster_interrupts env initial_state));
            submitted := submitted s;
            in_flight := in_flight s |}).
Proof.
  unfold thrustmaster_interrupts, bind. run.
  repeat (branch; run); unfold log, emit;
    cbn [trace wheel submitted in_flight]; rewrite <- ?app_assoc;
    reflexivity.
Qed.

(** X8. thrustmaster_interrupts never submits a URB and leaves the
    tm_wheel alone; it frees the send buffer on every path on which it
    allocated it, takes and gives back nothing else, and hands at most
    five packets to usb_interrupt_msg. *)
Theorem interrupts_only_send_packets (env : usb_env) (s : state) :
  let s' := snd (thrustmaster_interrupts env s) in
  wheel s' = wheel s /\ submitted s' = submitted s /\
  in_flight s' = in_flight s /\
  exists t : list event,
    trace s' = trace s ++ t /\
    submissions t = [] /\
    gets res_send_buf t = puts res_send_buf t /\
    (gets res_send_buf t <= 1)%nat /\
    (forall r, r <> res_send_buf -> gets r t = 0%nat /\ puts r t = 0%nat) /\
    (List.length (interrupt_packets t) <= 5)%nat.
Proof.
  intros s'. subst s'. rewrite interrupts_run. cbn [snd wheel submitted
    in_flight trace].
  repeat split.
  exists (trace (snd (thrustmaster_interrupts env initial_state))).
  split; [reflexivity |].
  unfold thrustmaster_interrupts, bind. run.
  repeat (branch; run);
    (split; [reflexivity |]; split; [reflexivity |];
     split; [cbn; lia |]; split; [| cbn; lia];
     intros r Hr; destruct r; try contradiction; split; reflexivity).
Qed.

(** The return value of usb_submit_urb, as a test and as a fact. *)
Ltac submit_ret_facts :=
  repeat match goal with
         | H : (submit_urb_ret _ _ =? 0) = true |- _ => apply Z.eqb_eq in H
         | H : (submit_urb_ret _ _ =? 0) = false |- _ => apply Z.eqb_neq in H
         end.

(** X9. thrustmaster_probe returns -ENOMEM when one of its four
    allocations fails and otherwise what usb_submit_urb returned. It
    returns 0 exactly when it leaves a URB in flight: the change request
    for product id 0xb69c, the model request for any other; it calls
    usb_submit_urb once, and not at all after a failed allocation. *)
Theorem probe_return_value (env : usb_env) :
  let r := fst (thrustmaster_probe env initial_state) in
  let s1 := snd (thrustmaster_probe env initial_state) in
  r = (if probe_allocations_ok env then submit_urb_ret env 0 else - ENOMEM) /\
  submitted s1 = (if probe_allocations_ok env then 1%nat else 0%nat) /\
  (r <> 0 -> in_flight s1 = None) /\
  (r = 0 -> idProduct env = (x9c, xb6) -> in_flight s1 = Some change_urb) /\
  (r = 0 -> idProduct env <> (x9c, xb6) -> in_flight s1 = Some model_urb).
Proof.
  pose proof (product_is_b69c (host env) (idProduct env)) as Hid.
  unfold probe_allocations_ok, thrustmaster_probe, thrustmaster_interrupts,
    bind.
  run.
  repeat (branch; run); try congruence; submit_ret_facts;
    (split; [reflexivity |]; split; [reflexivity |];
     split; [intros Hr; try reflexivity; try contradiction |];
     split; intros Hr Hp; try reflexivity; try discriminate Hr;
     try contradiction;
     try (apply Hid in Hp; discriminate Hp);
     try (exfalso; apply Hp; apply Hid; reflexivity)).
Qed.

(** What thrustmaster_probe holds when it returns. *)
Lemma probe_outcome (env : usb_env) :
  let r := fst (thrustmaster_probe env initial_state) in
  let s1 := snd (thrustmaster_probe env initial_state) in
  (r <> 0 ->
   in_flight s1 = None /\
   forall res, gets res (trace s1) = puts res (trace s1)) /\
  (r = 0 ->
   tw_interface (wheel s1) = true /\
   gets res_send_buf (trace s1) = puts res_send_buf (trace s1) /\
   forall res, res <> res_send_buf ->
     gets res (trace s1) = 1%nat /\ puts res (trace s1) = 0%nat).
Proof.
  unfold thrustmaster_probe, thrustmaster_interrupts, bind. run.
  repeat (branch; run); try congruence; submit_ret_facts;
    (split; intros Hr; try contradiction; try discriminate Hr;
     split; try reflexivity; try split; try reflexivity;
     intros res; try intros Hres; destruct res; try contradiction;
     try split; reflexivity).
Qed.

(** X10. When thrustmaster_probe fails it has given back everything it
    took and nothing is in flight. When it succeeds it holds, once each,
    the device, the interface, the URB, the two requests and the
    response buffer, and has given back the send buffer. *)
Theorem probe_keeps_or_releases_everything (env : usb_env) :
  let r := fst (thrustmaster_probe env initial_state) in
  let s1 := snd (thrustmaster_probe env initial_state) in
  (r <> 0 ->
   in_flight s1 = None /\
   forall res, gets res (trace s1) = puts res (trace s1)) /\
  (r = 0 ->
   gets res_send_buf (trace s1) = puts res_send_buf (trace s1) /\
   forall res, res <> res_send_buf ->
     gets res (trace s1) = 1%nat /\ puts res (trace s1) = 0%nat).
Proof.
  intros r s1. destruct (probe_outcome env) as [Hfail Hok].
  split; [exact Hfail |]. intros Hr. apply (Hok Hr).
Qed.

(** ** What the completion functions add to a trace *)

Lemma handler_events_quiet (t : list event) :
  forallb handler_event t = true ->
  filter is_query t = [] /\ interrupt_packets t = [] /\
  filter is_alloc_event t = [] /\
  forall r, gets r t = 0%nat /\ puts r t = 0%nat.
Proof.
  induction t as [| ev t IH]; intros Hall.
  - repeat split.
  - cbn [forallb] in Hall. apply andb_prop in Hall. destruct Hall as [Hev Hall].
    destruct (IH Hall) as (Hq & Hi & Ha & Hr).
    unfold interrupt_packets, gets, puts in *.
    destruct ev; try discriminate Hev; cbn [filter flat_map is_query is_get
      is_put is_alloc_event app].
    + repeat split; try assumption; apply Hr.
    + unfold handler_event in Hev. cbn in Hev.
      destruct (complete u); [discriminate Hev |].
      cbn [is_query complete]. repeat split; try assumption; apply Hr.
Qed.

Lemma handler_events_app (t1 t2 : list event) :
  forallb handler_event t1 = true -> forallb handler_event t2 = true ->
  forallb handler_event (t1 ++ t2) = true.
Proof.
  intros H1 H2. rewrite forallb_app, H1, H2. reflexivity.
Qed.

(** The model handler adds log lines and at most the change request. *)
Lemma model_handler_appends (env : usb_env) (status : Z) (s : state) :
  let s' := snd (thrustmaster_model_handler env status s) in
  (exists t, trace s' = trace s ++ t /\ forallb handler_event t = true) /\
  (submitted s <= submitted s')%nat /\ (submitted s' <= S (submitted s))%nat /\
  (in_flight s = None ->
   in_flight s' = None \/ in_flight s' = Some change_urb).
Proof.
  intros s'. subst s'. rewrite model_handler_run.
  assert (Hlog : forall l m,
            (exists t, trace (snd (log l m s)) = trace s ++ t /\
                       forallb handler_event t = true) /\
            (submitted s <= submitted (snd (log l m s)))%nat /\
            (submitted (snd (log l m s)) <= S (submitted s))%nat /\
            (in_flight s = None ->
             in_flight (snd (log l m s)) = None \/
             in_flight (snd (log l m s)) = Some change_urb)).
  { intros l m. cbn [log emit snd trace submitted in_flight].
    split; [exists [Log l m]; split; reflexivity |].
    repeat split; try lia. intros ->. left. reflexivity. }
  destruct (negb (status =? 0)); [apply Hlog |].
  destruct (read_model_attachment _ _) as [type | [mdl att]]; [apply Hlog |].
  destruct (resolve mdl att) as [[k found] |]; [| apply Hlog].
  cbn [snd]. rewrite submit_change_run. cbv zeta.
  cbn [snd log emit trace submitted in_flight].
  split; [| repeat split; try lia].
  - eexists. rewrite <- !app_assoc. split; [reflexivity |].
    destruct (_ =? 0); reflexivity.
  - intros ->. destruct (_ =? 0); [right | left]; reflexivity.
Qed.

Lemma change_handler_appends (status : Z) (s : state) :
  let s' := snd (thrustmaster_change_handler status s) in
  (exists t, trace s' = trace s ++ t /\ forallb handler_event t = true) /\
  submitted s' = submitted s /\ in_flight s' = in_flight s.
Proof.
  intros s'. subst s'. rewrite change_handler_run.
  cbn [snd trace submitted in_flight].
  split; [| split; reflexivity].
  eexists. split; [reflexivity |]. destruct (_ || _); reflexivity.
Qed.

(** Completions take and give back nothing, send no interrupt packet
    and never submit the model request. *)
Lemma completions_append (env : usb_env) (fuel : nat) :
  forall s : state,
    exists t,
      trace (snd (completions env fuel s)) = trace s ++ t /\
      forallb handler_event t = true.
Proof.
  induction fuel as [| fuel IH]; intros s.
  - exists []. rewrite app_nil_r. split; reflexivity.
  - rewrite completions_unfold.
    destruct (in_flight s) as [u |].
    + match goal with
      | |- context [completions env fuel ?s2] =>
          destruct (IH s2) as (t2 & Ht2 & Hq2);
            assert (Hs2 : exists t1, trace s2 = trace s ++ t1 /\
                                     forallb handler_event t1 = true)
      end.
      { unfold complete_urb. destruct (complete u).
        - unfold bind. cbn [update_wheel take_in_flight snd].
          match goal with
          | |- context [thrustmaster_model_handler env ?st ?s1] =>
              destruct (model_handler_appends env st s1) as [Happ _]
          end.
          exact Happ.
        - match goal with
          | |- context [thrustmaster_change_handler ?st ?s1] =>
              destruct (change_handler_appends st s1) as [Happ _]
          end.
          exact Happ. }
      destruct Hs2 as (t1 & Ht1 & Hq1).
      exists (t1 ++ t2). rewrite Ht2, Ht1, app_assoc.
      split; [reflexivity | apply handler_events_app; assumption].
    + exists []. rewrite app_nil_r. split; reflexivity.
Qed.

Lemma take_in_flight_idle (s : state) :
  in_flight s = None -> snd (take_in_flight s) = s.
Proof.
  destruct s as [w t n f]. cbn. intros ->. reflexivity.
Qed.

Lemma completions_idle (env : usb_env) (fuel : nat) (s : state) :
  in_flight s = None -> snd (completions env fuel s) = s.
Proof.
  intros Hfl. destruct fuel as [| fuel]; [reflexivity |].
  rewrite completions_unfold, Hfl. apply take_in_flight_idle. exact Hfl.
Qed.

(** Completions can be delivered in two batches. *)
Lemma completions_add (env : usb_env) (n m : nat) :
  forall s : state,
    snd (completions env (n + m) s)
    = snd (completions env m (snd (completions env n s))).
Proof.
  induction n as [| n IH]; intros s; [reflexivity |].
  cbn [Nat.add]. rewrite !completions_unfold.
  destruct (in_flight s) as [u |] eqn:Hfl; [apply IH |].
  rewrite completions_idle; [reflexivity |]. reflexivity.
Qed.

(** ** The session as a whole *)

Lemma queries_app (t1 t2 : list event) :
  queries (t1 ++ t2) = (queries t1 + queries t2)%nat.
Proof.
  unfold queries. rewrite filter_app, length_app. reflexivity.
Qed.

Lemma probe_establishes_submit_inv (env : usb_env) :
  submit_inv (snd (thrustmaster_probe env initial_state)).
Proof.
  unfold thrustmaster_probe, thrustmaster_interrupts, bind. run.
  repeat (branch; run); unfold submit_inv; cbn; repeat split; lia.
Qed.

Lemma completions_submit_inv (env : usb_env) (fuel : nat) :
  forall s : state,
    submit_inv s -> submit_inv (snd (completions env fuel s)).
Proof.
  induction fuel as [| fuel IH]; intros s Hinv; [exact Hinv |].
  rewrite completions_unfold.
  destruct Hinv as (Hq & Hsub & Hfl).
  destruct (in_flight s) as [u |] eqn:Hu.
  - apply IH. unfold complete_urb. destruct (complete u).
    + unfold bind. cbn [update_wheel take_in_flight snd].
      match goal with
      | |- context [thrustmaster_model_handler env ?st ?s1] =>
          destruct (model_handler_appends env st s1)
            as ((t & Ht & Hev) & Hlo & Hhi & Hnext);
            set (s2 := snd (thrustmaster_model_handler env st s1)) in *
      end.
      cbn [submitted in_flight] in Hlo, Hhi, Hnext.
      destruct (handler_events_quiet t Hev) as (Hqt & _).
      unfold submit_inv. rewrite Ht, queries_app.
      unfold queries at 2. rewrite Hqt. cbn [trace List.length].
      split; [lia |]. split; [lia |].
      destruct (Hnext eq_refl) as [-> | ->]; exact I.
    + match goal with
      | |- context [thrustmaster_change_handler ?st ?s1] =>
          destruct (change_handler_appends st s1)
            as ((t & Ht & Hev) & Hsame & Hfl');
            set (s2 := snd (thrustmaster_change_handler st s1)) in *
      end.
      cbn [submitted in_flight take_in_flight snd] in Hsame, Hfl'.
      destruct (handler_events_quiet t Hev) as (Hqt & _).
      unfold submit_inv. rewrite Ht, queries_app, Hsame, Hfl'.
      unfold queries at 2. rewrite Hqt. cbn [trace List.length take_in_flight
        snd].
      split; [lia |]. split; [lia | exact I].
  - unfold submit_inv. cbn [take_in_flight snd trace submitted in_flight].
    repeat split; assumption.
Qed.

(** X11. A session submits the model request at most once and calls
    usb_submit_urb at most twice, however many completions are
    delivered. After two completions nothing is in flight, and
    delivering more changes nothing. *)
Theorem session_ends_after_two_completions (env : usb_env) (fuel : nat) :
  let s' := snd (session env fuel initial_state) in
  (queries (trace s') <= 1)%nat /\ (submitted s' <= 2)%nat /\
  ((2 <= fuel)%nat ->
   in_flight s' = None /\ s' = snd (session env 2 initial_state)).
Proof.
  intros s'. subst s'. rewrite !session_state.
  pose proof (completions_submit_inv env fuel _
                (probe_establishes_submit_inv env)) as (Hq & Hsub & _).
  split; [exact Hq |]. split; [exact Hsub |].
  intros Hfuel.
  assert (Hrest : in_flight
                    (snd (completions env 2
                            (snd (thrustmaster_probe env initial_state))))
                  = None).
  { apply completions_rest; [apply probe_establishes_inv |].
    unfold phase. destruct (in_flight _) as [u |]; [| lia].
    destruct (complete u); lia. }
  replace fuel with (2 + (fuel - 2))%nat by lia.
  rewrite completions_add, completions_idle by exact Hrest.
  split; [exact Hrest | reflexivity].
Qed.

(** X12. The model handler never returns without a word: every run
    logs exactly one of its four messages, and that message is the
    dev_info line naming the wheel exactly when the run calls
    usb_submit_urb; a failure of that call is logged by
    thrustmaster_submit_change although the handler drops its return
    value. *)
Theorem model_handler_always_logs (env : usb_env) (status : Z) (s : state) :
  let s' := snd (thrustmaster_model_handler env status s) in
  exists (l : level) (m : message) (rest : list event),
    trace s' = trace s ++ Log l m :: rest /\
    from_model_handler (Log l m) = true /\
    filter from_model_handler rest = [] /\
    (l = dev_info /\ submitted s' = S (submitted s) /\
     (exists rq, rest = SubmitUrb change_urb rq
                          (submit_urb_ret env (submitted s))
                        :: (if submit_urb_ret env (submitted s) =? 0 then []
                            else [Log dev_err
                                    (change_submit_error
                                       (submit_urb_ret env (submitted s)))]))
     \/
     l = dev_err /\ submitted s' = submitted s /\ rest = [] /\
     in_flight s' = in_flight s).
Proof.
  intros s'. subst s'. rewrite model_handler_run.
  destruct (negb (status =? 0)).
  { do 3 eexists. cbn [log emit snd trace submitted in_flight].
    split; [reflexivity |]. split; [reflexivity |]. split; [reflexivity |].
    right. repeat split. }
  destruct (read_model_attachment _ _) as [type | [mdl att]].
  { do 3 eexists. cbn [log emit snd trace submitted in_flight].
    split; [reflexivity |]. split; [reflexivity |]. split; [reflexivity |].
    right. repeat split. }
  destruct (resolve mdl att) as [[k found] |].
  - cbn [snd]. rewrite submit_change_run. cbv zeta.
    cbn [snd log emit trace submitted in_flight].
    do 3 eexists. rewrite <- !app_assoc. cbn [app].
    split; [reflexivity |]. split; [reflexivity |].
    split; [destruct (_ =? 0); reflexivity |].
    left. split; [reflexivity |]. split; [reflexivity |].
    eexists. reflexivity.
  - do 3 eexists. cbn [log emit snd trace submitted in_flight].
    split; [reflexivity |]. split; [reflexivity |]. split; [reflexivity |].
    right. repeat split.
Qed.

(** thrustmaster_probe on a wheel that is queried and accepts the
    query. *)
Lemma probe_default_submitted (env : usb_env) :
  idProduct env <> (x9c, xb6) -> probe_allocations_ok env = true ->
  submit_urb_ret env 0 = 0 ->
  let s1 := snd (thrustmaster_probe env initial_state) in
  in_flight s1 = Some model_urb /\
  tw_response (wheel s1) = zeroed_response /\
  tw_change_request (wheel s1) = Some change_request /\
  submitted s1 = 1%nat /\
  submissions (trace s1)
  = [SubmitUrb model_urb (Some (model_request (host env))) 0] /\
  logged_at dev_info (trace s1) = [].
Proof.
  intros Hid Halloc Hsub.
  apply product_is_not_b69c with (e := host env) in Hid.
  destruct (probe_allocations env Halloc) as (A1 & A2 & A3 & A4).
  unfold thrustmaster_probe, thrustmaster_interrupts, bind.
  run. rewrite A1, A2, A3, A4. run. rewrite Hid. run.
  repeat (branch; run); rewrite ?Hsub in *; try discriminate;
    repeat split; reflexivity.
Qed.

(** X13. Away from product id 0xb69c, when the allocations succeed, the
    bus accepts both URBs, the model request completes with status 0 and
    the search finds an entry for the pair in the answer, the session
    submits the model request and then the change request with that
    entry's switch value, and logs the wheel by that entry's name --
    whatever happened to the interrupt packets before. *)
Theorem queried_wheel_is_switched
  (env : usb_env) (fuel : nat) (mdl att : byte) (k : nat) (found : bool) :
  idProduct env <> (x9c, xb6) -> probe_allocations_ok env = true ->
  submit_urb_ret env 0 = 0 -> submit_urb_ret env 1 = 0 ->
  query_status env = 0 ->
  read_model_attachment (host env)
    (receive (query_reply env) zeroed_response) = inr (mdl, att) ->
  resolve mdl att = Some (k, found) ->
  let s' := snd (session env (S fuel) initial_state) in
  submissions (trace s')
  = [SubmitUrb model_urb (Some (model_request (host env))) 0;
     SubmitUrb change_urb
       (Some (set_wValue (cpu_to_le16 (host env) (switch_value (entry k)))
                change_request)) 0] /\
  logged_at dev_info (trace s')
  = wheel_is mdl att (wheel_name (entry k)) found
    :: match fuel with
       | O => []
       | S _ => logged_at dev_info [change_completion_event (change_status env)]
       end.
Proof.
  intros Hid Halloc Hsub0 Hsub1 Hst Hread Hres s'. subst s'.
  destruct (probe_default_submitted env Hid Halloc Hsub0)
    as (Hfl & Hresp & Hcr & Hsub & Hsubm & Hinfo).
  rewrite session_state, completions_unfold, Hfl.
  unfold complete_urb. cbn [complete model_urb].
  unfold bind. cbn [update_wheel take_in_flight snd].
  rewrite model_handler_run.
  cbn [wheel with_response tw_response]. rewrite Hresp, Hst, Hread, Hres.
  cbn [negb Z.eqb snd]. rewrite submit_change_run. cbv zeta.
  cbn [snd log emit trace wheel submitted tw_change_request with_response].
  rewrite Hcr, Hsub, Hsub1. cbn [Z.eqb option_map].
  match goal with
  | |- context [completions env fuel ?s3] => set (s3' := s3)
  end.
  assert (Htail : trace (snd (completions env fuel s3'))
                  = trace s3' ++ match fuel with
                                 | O => []
                                 | S _ => [change_completion_event
                                             (change_status env)]
                                 end).
  { destruct fuel as [| fuel];
      [cbn [completions ret snd]; rewrite app_nil_r; reflexivity |].
    rewrite completions_unfold. subst s3'. cbn [in_flight].
    unfold complete_urb. cbn [complete change_urb].
    rewrite change_handler_run. cbn [snd take_in_flight].
    rewrite completions_idle by reflexivity. reflexivity. }
  rewrite Htail. subst s3'. cbn [trace].
  unfold logged_at in *. rewrite !submissions_app, !flat_map_app.
  rewrite Hsubm, Hinfo. split.
  - destruct fuel; [reflexivity |].
    destruct (change_completion_event_quiet (change_status env)) as [_ ->].
    reflexivity.
  - destruct fuel; reflexivity.
Qed.

(** ** Disconnect and the two drivers *)

Lemma gets_app (r : resource) (t1 t2 : list event) :
  gets r (t1 ++ t2) = (gets r t1 + gets r t2)%nat.
Proof.
  unfold gets. rewrite filter_app, length_app. reflexivity.
Qed.

Lemma puts_app (r : resource) (t1 t2 : list event) :
  puts r (t1 ++ t2) = (puts r t1 + puts r t2)%nat.
Proof.
  unfold puts. rewrite filter_app, length_app. reflexivity.
Qed.

Lemma kill_log_is_handler_event (pending : option urb) :
  forallb handler_event (kill_log pending) = true.
Proof.
  destruct pending as [u |]; [| reflexivity].
  unfold kill_log. destruct (complete u); reflexivity.
Qed.

(** What usb_kill_urb does to a state. *)
Lemma kill_urb_run (env : usb_env) (s : state) :
  usb_kill_urb env s
  = (tt, {| wheel := wheel s;
            trace := trace s ++ kill_log (in_flight s);
            submitted := submitted s;
            in_flight := None |}).
Proof.
  unfold usb_kill_urb, bind, take_in_flight, kill_log.
  destruct (in_flight s) as [u |].
  - destruct (complete u).
    + rewrite model_handler_run. reflexivity.
    + rewrite change_handler_run. reflexivity.
  - cbn. rewrite app_nil_r. reflexivity.
Qed.

(** What thrustmaster_disconnect does to a state. *)
Lemma disconnect_run (denv : driver_env) (g : driver_state) :
  thrustmaster_disconnect denv g
  = (tt,
     {| core := {| wheel := wheel (core g);
                   trace := trace (core g)
                            ++ kill_log (in_flight (core g))
                            ++ disconnect_frees;
                   submitted := submitted (core g);
                   in_flight := None |};
        outer := outer g
                 ++ [(List.length (trace (core g)
                                   ++ kill_log (in_flight (core g))
                                   ++ disconnect_frees),
                      kfree_tm_wheel)] |}).
Proof.
  unfold thrustmaster_disconnect, gbind, lift, note.
  rewrite kill_urb_run.
  cbn [core outer emit trace wheel submitted in_flight].
  unfold disconnect_frees. rewrite <- !app_assoc. reflexivity.
Qed.

Lemma completions_keep_interface (env : usb_env) (fuel : nat) :
  forall s : state,
    tw_interface (wheel (snd (completions env fuel s)))
    = tw_interface (wheel s).
Proof.
  induction fuel as [| fuel IH]; intros s; [reflexivity |].
  rewrite completions_unfold.
  destruct (in_flight s) as [u |]; [| reflexivity].
  rewrite IH. unfold complete_urb. destruct (complete u).
  - unfold bind. cbn [update_wheel take_in_flight snd].
    rewrite model_handler_run.
    destruct (negb _); [reflexivity |].
    destruct (read_model_attachment _ _) as [type | [mdl att]];
      [reflexivity |].
    destruct (resolve mdl att) as [[k found] |]; [| reflexivity].
    cbn [snd]. rewrite submit_change_run. reflexivity.
  - rewrite change_handler_run. reflexivity.
Qed.

(** X14. thrustmaster_disconnect, on any state: the URB that is in
    flight is killed and its completion function logs the status
    -ENOENT; the change request, the response, the model request and the
    URB are freed after that, in this order, and the tm_wheel last.
    Nothing is submitted and nothing is in flight afterwards. *)
Theorem disconnect_kills_then_frees (denv : driver_env) (g : driver_state) :
  let g' := snd (thrustmaster_disconnect denv g) in
  trace (core g')
  = trace (core g) ++ kill_log (in_flight (core g)) ++ disconnect_frees /\
  in_flight (core g') = None /\
  submitted (core g') = submitted (core g) /\
  submissions (trace (core g')) = submissions (trace (core g)) /\
  outer g' = outer g ++ [(List.length (trace (core g')), kfree_tm_wheel)].
Proof.
  intros g'. subst g'. rewrite disconnect_run.
  cbn [snd core outer trace in_flight submitted].
  repeat split.
  rewrite !submissions_app.
  replace (submissions (kill_log (in_flight (core g)))) with (@nil event).
  - rewrite app_nil_r. reflexivity.
  - unfold kill_log. destruct (in_flight (core g)) as [u |]; [| reflexivity].
    destruct (complete u); reflexivity.
Qed.

(** A bound device at its disconnect holds what the probe took. *)
Lemma bound_state_holds (env : usb_env) (n : nat) :
  fst (thrustmaster_probe env initial_state) = 0 ->
  let s2 := snd (completions env n (snd (thrustmaster_probe env initial_state)))
  in
  tw_interface (wheel s2) = true /\
  gets res_send_buf (trace s2) = puts res_send_buf (trace s2) /\
  forall res, res <> res_send_buf ->
    gets res (trace s2) = 1%nat /\ puts res (trace s2) = 0%nat.
Proof.
  intros Hr s2. subst s2.
  destruct (probe_outcome env) as [_ Hok].
  destruct (Hok Hr) as (Hintf & Hbuf & Hheld).
  rewrite completions_keep_interface.
  destruct (completions_append env n
              (snd (thrustmaster_probe env initial_state)))
    as (t & -> & Hev).
  destruct (handler_events_quiet t Hev) as (_ & _ & _ & Hnone).
  split; [exact Hintf |]. split.
  - rewrite gets_app, puts_app.
    destruct (Hnone res_send_buf) as [-> ->]. lia.
  - intros res Hres. rewrite gets_app, puts_app.
    destruct (Hnone res) as [-> ->]. destruct (Hheld res Hres). lia.
Qed.

(** What the probe of the USB driver does to an unbound device. *)
Lemma usb_probe_run (denv : driver_env) :
  thrustmaster_usb_probe denv unbound
  = if negb (tm_wheel_alloc_ok denv) then (- ENOMEM, unbound)
    else
      let r := fst (thrustmaster_probe (usb denv) initial_state) in
      let s1 := snd (thrustmaster_probe (usb denv) initial_state) in
      (r, {| core := s1;
             outer := [(0%nat, kzalloc_tm_wheel); (0%nat, usb_set_intfdata)]
                      ++ (if negb (r =? 0)
                          then [(List.length (trace s1), kfree_tm_wheel)]
                          else []) |}).
Proof.
  unfold thrustmaster_usb_probe.
  destruct (negb (tm_wheel_alloc_ok denv)); [reflexivity |].
  unfold gbind, note, lift, gret. cbn [core outer unbound app].
  destruct (thrustmaster_probe (usb denv) initial_state) as [r s1].
  cbv zeta. cbn [fst snd]. destruct (negb (r =? 0)); reflexivity.
Qed.

(** What the disconnect of the USB driver does to a bound device. *)
Lemma usb_disconnect_run (denv : driver_env) (g : driver_state) :
  tw_interface (wheel (core g)) = true ->
  thrustmaster_usb_disconnect denv g
  = thrustmaster_disconnect denv
      {| core := {| wheel := wheel (core g);
                    trace := trace (core g)
                             ++ [Put res_usb_intf; Put res_usb_dev];
                    submitted := submitted (core g);
                    in_flight := in_flight (core g) |};
         outer := outer g |}.
Proof.
  intros Hintf.
  unfold thrustmaster_usb_disconnect, gbind, lift, usb_put_intf, bind,
    get_wheel.
  rewrite Hintf. cbn [emit core outer trace wheel submitted in_flight].
  rewrite <- app_assoc. reflexivity.
Qed.

(** What the probe of the HID driver does to an unbound device. *)
Lemma hid_probe_run (denv : driver_env) :
  thrustmaster_hid_probe denv unbound
  = if negb (tm_wheel_alloc_ok denv) then (- ENOMEM, unbound)
    else if negb (hid_parse_ret denv =? 0) then
      (hid_parse_ret denv,
       {| core := initial_state;
          outer := [(0%nat, kzalloc_tm_wheel);
                    (0%nat, hid_parse (hid_parse_ret denv));
                    (0%nat, hid_err_parse_failed (hid_parse_ret denv));
                    (0%nat, kfree_tm_wheel)] |})
    else if negb (hid_hw_start_ret denv =? 0) then
      (hid_hw_start_ret denv,
       {| core := initial_state;
          outer := [(0%nat, kzalloc_tm_wheel);
                    (0%nat, hid_parse (hid_parse_ret denv));
                    (0%nat, hid_hw_start 13 (hid_hw_start_ret denv));
                    (0%nat, hid_err_hw_start_failed (hid_hw_start_ret denv));
                    (0%nat, kfree_tm_wheel)] |})
    else
      let r := fst (thrustmaster_probe (usb denv) initial_state) in
      let s1 := snd (thrustmaster_probe (usb denv) initial_state) in
      (r, {| core := s1;
             outer := [(0%nat, kzalloc_tm_wheel);
                       (0%nat, hid_parse (hid_parse_ret denv));
                       (0%nat, hid_hw_start 13 (hid_hw_start_ret denv));
                       (0%nat, hid_set_drvdata)]
                      ++ (if negb (r =? 0)
                          then [(List.length (trace s1), hid_hw_stop);
                                (List.length (trace s1), kfree_tm_wheel)]
                          else []) |}).
Proof.
  unfold thrustmaster_hid_probe.
  destruct (negb (tm_wheel_alloc_ok denv)); [reflexivity |].
  unfold gbind at 1 2. unfold note at 1 2. cbn [core outer unbound app].
  destruct (negb (hid_parse_ret denv =? 0)); [reflexivity |].
  unfold gbind at 1. unfold note at 1. cbn [core outer app].
  change (Z.land HID_CONNECT_DEFAULT (Z.lnot HID_CONNECT_FF)) with 13.
  destruct (negb (hid_hw_start_ret denv =? 0)); [reflexivity |].
  unfold gbind, note, lift, gret. cbn [core outer app].
  destruct (thrustmaster_probe (usb denv) initial_state) as [r s1].
  cbv zeta. cbn [fst snd]. destruct (negb (r =? 0)); reflexivity.
Qed.

Lemma outer_count_app (p : outer_event -> bool)
  (o1 o2 : list (nat * outer_event)) :
  outer_count p (o1 ++ o2) = (outer_count p o1 + outer_count p o2)%nat.
Proof.
  unfold outer_count. rewrite filter_app, length_app. reflexivity.
Qed.

(** Killing and freeing at disconnect gives back what a bound device
    holds, apart from the device and the interface. *)
Lemma disconnect_balance (s2 : state) (extra : list event) :
  gets res_send_buf (trace s2) = puts res_send_buf (trace s2) ->
  (forall res, res <> res_send_buf ->
     gets res (trace s2) = 1%nat /\ puts res (trace s2) = 0%nat) ->
  forall res,
    gets res (trace s2 ++ extra ++ kill_log (in_flight s2) ++ disconnect_frees)
    = (gets res (trace s2) + gets res extra)%nat /\
    puts res (trace s2 ++ extra ++ kill_log (in_flight s2) ++ disconnect_frees)
    = (puts res (trace s2) + puts res extra
       + match res with
         | res_urb | res_model_request | res_response
         | res_change_request => 1
         | _ => 0
         end)%nat.
Proof.
  intros Hbuf Hheld res. rewrite !gets_app, !puts_app.
  pose proof (handler_events_quiet _
                (kill_log_is_handler_event (in_flight s2)))
    as (_ & _ & _ & Hkill).
  destruct (Hkill res) as [-> ->].
  destruct res; cbn; lia.
Qed.

(** The USB driver from probe to disconnect, step by step. *)
Lemma usb_lifecycle_run (denv : driver_env) (n : nat) :
  snd (usb_lifecycle denv n unbound)
  = if negb (tm_wheel_alloc_ok denv) then unbound
    else
      let r := fst (thrustmaster_probe (usb denv) initial_state) in
      let s1 := snd (thrustmaster_probe (usb denv) initial_state) in
      if r =? 0 then
        snd (thrustmaster_usb_disconnect denv
               {| core := snd (completions (usb denv) n s1);
                  outer := [(0%nat, kzalloc_tm_wheel);
                            (0%nat, usb_set_intfdata)] |})
      else
        {| core := s1;
           outer := [(0%nat, kzalloc_tm_wheel); (0%nat, usb_set_intfdata);
                     (List.length (trace s1), kfree_tm_wheel)] |}.
Proof.
  unfold usb_lifecycle, gbind. rewrite usb_probe_run.
  destruct (negb (tm_wheel_alloc_ok denv)); [reflexivity |].
  cbv beta iota zeta.
  destruct (fst (thrustmaster_probe (usb denv) initial_state) =? 0);
    cbn [negb app]; [| reflexivity].
  unfold lift. cbn [core outer].
  destruct (completions (usb denv) n _) as [[] s2]. cbn [snd].
  destruct (thrustmaster_usb_disconnect denv _) as [[] g2]. reflexivity.
Qed.

(** The HID driver from probe to disconnect, step by step. *)
Lemma hid_lifecycle_run (denv : driver_env) (n : nat) :
  snd (hid_lifecycle denv n unbound)
  = let g1 := snd (thrustmaster_hid_probe denv unbound) in
    if fst (thrustmaster_hid_probe denv unbound) =? 0 then
      snd (thrustmaster_hid_disconnect denv
             {| core := snd (completions (usb denv) n (core g1));
                outer := outer g1 |})
    else g1.
Proof.
  unfold hid_lifecycle, gbind.
  destruct (thrustmaster_hid_probe denv unbound) as [r g1].
  cbv zeta. cbn [fst snd].
  destruct (r =? 0); [| reflexivity].
  unfold lift. destruct (completions (usb denv) n _) as [[] s2]. cbn [snd].
  destruct (thrustmaster_hid_disconnect denv _) as [[] g2]. reflexivity.
Qed.

(** Rewrite the counts of a resource that is held once. *)
Ltac held H r :=
  let Hg := fresh in
  let Hp := fresh in
  destruct (H r ltac:(discriminate)) as [Hg Hp]; rewrite Hg, Hp.

Ltac small_counts :=
  cbn [gets puts filter is_get is_put resource_index Nat.eqb List.length].

(** X15. The USB driver, from probe to disconnect: whether the probe
    fails or the device is bound, completes any number of URBs and is
    disconnected, in the end every allocation and every reference taken
    has been given back exactly as often as it was taken, the tm_wheel
    included, and nothing is in flight. *)
Theorem usb_driver_releases_everything (denv : driver_env) (n : nat) :
  let g := snd (usb_lifecycle denv n unbound) in
  (forall res, gets res (trace (core g)) = puts res (trace (core g))) /\
  in_flight (core g) = None /\
  outer_count is_kzalloc_tm_wheel (outer g)
  = outer_count is_kfree_tm_wheel (outer g).
Proof.
  intros g. subst g. rewrite usb_lifecycle_run.
  destruct (negb (tm_wheel_alloc_ok denv)); [repeat split |].
  cbv zeta.
  destruct (probe_outcome (usb denv)) as [Hfail Hok].
  pose proof (bound_state_holds (usb denv) n) as Hbound.
  destruct (Z.eqb_spec (fst (thrustmaster_probe (usb denv) initial_state)) 0)
    as [Hr | Hr].
  - destruct (Hbound Hr) as (Hintf & Hbuf & Hheld).
    rewrite usb_disconnect_run by exact Hintf.
    rewrite disconnect_run.
    cbn [snd core outer trace in_flight].
    split; [| split; reflexivity].
    intros res. rewrite <- app_assoc.
    destruct (disconnect_balance _ [Put res_usb_intf; Put res_usb_dev]
                Hbuf Hheld res) as [-> ->].
    destruct res;
      [held Hheld res_usb_dev | held Hheld res_usb_intf | held Hheld res_urb
      | held Hheld res_model_request | held Hheld res_response
      | held Hheld res_change_request | rewrite Hbuf];
      small_counts; lia.
  - cbn [core outer].
    destruct (Hfail Hr) as [Hfl Hbal].
    split; [exact Hbal |]. split; [exact Hfl | reflexivity].
Qed.

(** X16. The HID driver, from probe to disconnect. A probe that fails
    gives back everything. A device that was bound and is disconnected
    has its URB, requests, response buffer and tm_wheel freed and its
    hardware stopped, but thrustmaster_hid_disconnect never gives back
    the references to the USB device and to the interface that
    thrustmaster_probe took: each stays taken once. *)
Theorem hid_driver_keeps_device_references (denv : driver_env) (n : nat) :
  let r := fst (hid_lifecycle denv n unbound) in
  let g := snd (hid_lifecycle denv n unbound) in
  (forall res, res <> res_usb_dev -> res <> res_usb_intf ->
     gets res (trace (core g)) = puts res (trace (core g))) /\
  (r <> 0 ->
   gets res_usb_dev (trace (core g)) = puts res_usb_dev (trace (core g)) /\
   gets res_usb_intf (trace (core g)) = puts res_usb_intf (trace (core g)))
  /\
  (r = 0 ->
   gets res_usb_dev (trace (core g)) = 1%nat /\
   puts res_usb_dev (trace (core g)) = 0%nat /\
   gets res_usb_intf (trace (core g)) = 1%nat /\
   puts res_usb_intf (trace (core g)) = 0%nat) /\
  in_flight (core g) = None /\
  outer_count is_kzalloc_tm_wheel (outer g)
  = outer_count is_kfree_tm_wheel (outer g) /\
  outer_count is_hid_hw_start_ok (outer g)
  = outer_count is_hid_hw_stop (outer g).
Proof.
  intros r g.
  assert (Hr : r = fst (thrustmaster_hid_probe denv unbound)).
  { subst r. unfold hid_lifecycle, gbind.
    destruct (thrustmaster_hid_probe denv unbound) as [r1 g1]. cbn [fst].
    destruct (r1 =? 0); [| reflexivity].
    unfold lift. destruct (completions (usb denv) n _) as [[] s2].
    destruct (thrustmaster_hid_disconnect denv _) as [[] g2]. reflexivity. }
  rewrite Hr. clear Hr r. subst g. rewrite hid_lifecycle_run.
  rewrite hid_probe_run. cbv zeta.
  destruct (negb (tm_wheel_alloc_ok denv)).
  { cbn. repeat split; intros; try discriminate; try lia. }
  destruct (Z.eqb_spec (hid_parse_ret denv) 0) as [Hparse | Hparse];
    cbn [negb fst snd].
  2: { replace (hid_parse_ret denv =? 0) with false
         by (symmetry; apply Z.eqb_neq; exact Hparse).
       cbn. repeat split; intros; try contradiction; reflexivity. }
  destruct (Z.eqb_spec (hid_hw_start_ret denv) 0) as [Hstart | Hstart];
    cbn [negb fst snd].
  2: { replace (hid_hw_start_ret denv =? 0) with false
         by (symmetry; apply Z.eqb_neq; exact Hstart).
       cbn [core outer trace initial_state in_flight].
       unfold outer_count. cbn [filter snd is_kzalloc_tm_wheel
         is_kfree_tm_wheel is_hid_hw_start_ok is_hid_hw_stop List.length].
       replace (hid_hw_start_ret denv =? 0) with false
         by (symmetry; apply Z.eqb_neq; exact Hstart).
       repeat split; intros; try contradiction; reflexivity. }
  destruct (probe_outcome (usb denv)) as [Hfail Hok].
  pose proof (bound_state_holds (usb denv) n) as Hbound.
  rewrite Hstart.
  destruct (Z.eqb_spec (fst (thrustmaster_probe (usb denv) initial_state)) 0)
    as [Hr | Hr]; cbn [negb app core outer].
  - destruct (Hbound Hr) as (Hintf & Hbuf & Hheld).
    unfold thrustmaster_hid_disconnect, gbind. rewrite disconnect_run.
    unfold note. cbn [snd core outer trace in_flight].
    assert (Hbal : forall res,
              gets res (trace (snd (completions (usb denv) n
                          (snd (thrustmaster_probe (usb denv) initial_state))))
                        ++ kill_log (in_flight (snd (completions (usb denv) n
                          (snd (thrustmaster_probe (usb denv) initial_state)))))
                        ++ disconnect_frees)
              = gets res (trace (snd (completions (usb denv) n
                          (snd (thrustmaster_probe (usb denv) initial_state)))))
              /\
              puts res (trace (snd (completions (usb denv) n
                          (snd (thrustmaster_probe (usb denv) initial_state))))
                        ++ kill_log (in_flight (snd (completions (usb denv) n
                          (snd (thrustmaster_probe (usb denv) initial_state)))))
                        ++ disconnect_frees)
              = (puts res (trace (snd (completions (usb denv) n
                          (snd (thrustmaster_probe (usb denv) initial_state)))))
                 + match res with
                   | res_urb | res_model_request | res_response
                   | res_change_request => 1
                   | _ => 0
                   end)%nat).
    { intros res.
      destruct (disconnect_balance _ [] Hbuf Hheld res) as [Hg Hp].
      cbn [app] in Hg, Hp. rewrite Hg, Hp. cbn. lia. }
    split; [| split; [| split; [| split; [| split]]]].
    + intros res Hdev Hintf'. destruct (Hbal res) as [-> ->].
      destruct res;
        [contradiction | contradiction | held Hheld res_urb
        | held Hheld res_model_request | held Hheld res_response
        | held Hheld res_change_request | rewrite Hbuf]; lia.
    + intros Hne. contradiction.
    + intros _.
      destruct (Hbal res_usb_dev) as [-> ->].
      destruct (Hbal res_usb_intf) as [-> ->].
      destruct (Hheld res_usb_dev ltac:(discriminate)) as [-> ->].
      destruct (Hheld res_usb_intf ltac:(discriminate)) as [-> ->].
      repeat split.
    + reflexivity.
    + reflexivity.
    + reflexivity.
  - destruct (Hfail Hr) as [Hfl Hbal].
    split; [intros res _ _; apply Hbal |].
    split; [intros _; split; apply Hbal |].
    split; [intros H0; contradiction |].
    split; [exact Hfl |]. split; reflexivity.
Qed.

(** X17. The probe of the HID driver stops at the first step that
    fails and returns its code: -ENOMEM without a tm_wheel, else the
    code of hid_parse, else that of hid_hw_start (called without the
    force-feedback bit), else that of thrustmaster_probe. Nothing of
    tminit.c runs before hid_parse and hid_hw_start have both succeeded;
    the hardware is stopped only when it had been started and
    thrustmaster_probe failed; the tm_wheel is freed on every failure
    and kept on success. *)
Theorem hid_probe_stops_at_first_failure (denv : driver_env) :
  let r := fst (thrustmaster_hid_probe denv unbound) in
  let g := snd (thrustmaster_hid_probe denv unbound) in
  (tm_wheel_alloc_ok denv = false -> r = - ENOMEM /\ g = unbound) /\
  (tm_wheel_alloc_ok denv = true -> hid_parse_ret denv <> 0 ->
   r = hid_parse_ret denv /\ core g = initial_state /\
   map snd (outer g)
   = [kzalloc_tm_wheel; hid_parse r; hid_err_parse_failed r;
      kfree_tm_wheel]) /\
  (tm_wheel_alloc_ok denv = true -> hid_parse_ret denv = 0 ->
   hid_hw_start_ret denv <> 0 ->
   r = hid_hw_start_ret denv /\ core g = initial_state /\
   map snd (outer g)
   = [kzalloc_tm_wheel; hid_parse 0; hid_hw_start 13 r;
      hid_err_hw_start_failed r; kfree_tm_wheel]) /\
  (tm_wheel_alloc_ok denv = true -> hid_parse_ret denv = 0 ->
   hid_hw_start_ret denv = 0 ->
   r = fst (thrustmaster_probe (usb denv) initial_state) /\
   core g = snd (thrustmaster_probe (usb denv) initial_state) /\
   map snd (outer g)
   = [kzalloc_tm_wheel; hid_parse 0; hid_hw_start 13 0; hid_set_drvdata]
     ++ (if r =? 0 then [] else [hid_hw_stop; kfree_tm_wheel])) /\
  Z.land 13 HID_CONNECT_FF = 0.
Proof.
  intros r g. subst r g. rewrite hid_probe_run.
  split; [| split; [| split; [| split]]].
  - intros ->. split; reflexivity.
  - intros -> Hparse.
    replace (hid_parse_ret denv =? 0) with false
      by (symmetry; apply Z.eqb_neq; exact Hparse).
    repeat split.
  - intros -> -> Hstart.
    replace (hid_hw_start_ret denv =? 0) with false
      by (symmetry; apply Z.eqb_neq; exact Hstart).
    repeat split.
  - intros -> -> ->. cbv zeta. cbn [negb Z.eqb fst snd core outer].
    split; [reflexivity |]. split; [reflexivity |].
    destruct (_ =? 0); reflexivity.
  - reflexivity.
Qed.

(** Completions never raise the phase. *)
Lemma completions_phase (env : usb_env) (fuel : nat) :
  forall s : state,
    handshake_inv s ->
    (phase (snd (completions env fuel s)) <= phase s)%nat.
Proof.
  induction fuel as [| fuel IH]; intros s Hinv; [reflexivity |].
  rewrite completions_unfold.
  destruct (in_flight s) as [u |] eqn:Hu.
  - destruct (deliver_inv env s u Hu Hinv) as [Hinv' Hlt].
    specialize (IH _ Hinv'). lia.
  - unfold phase. cbn [take_in_flight snd in_flight]. lia.
Qed.

Lemma usb_table_is_b69c (denv : driver_env) :
  id_matches thrustmaster_usb_devices denv = true ->
  idProduct (usb denv) = (x9c, xb6).
Proof.
  unfold id_matches, thrustmaster_usb_devices. cbn [existsb fst snd].
  rewrite orb_false_r. intros H. apply andb_prop in H. destruct H as [_ H].
  apply (product_is_b69c LittleEndian). rewrite le16_to_cpu_load16.
  rewrite Z.eqb_sym. exact H.
Qed.

(** X18. The only product in the id table of the USB driver is 0xb69c.
    For a device that table matches, from probe to disconnect, the
    driver never submits the model request, sends no interrupt packet
    and never runs the model handler. *)
Theorem usb_driver_never_queries (denv : driver_env) (n : nat) :
  id_matches thrustmaster_usb_devices denv = true ->
  let g := snd (usb_lifecycle denv n unbound) in
  filter is_query (trace (core g)) = [] /\
  interrupt_packets (trace (core g)) = [] /\
  filter from_model_handler (trace (core g)) = [].
Proof.
  intros Hmatch g. subst g. apply usb_table_is_b69c in Hmatch.
  destruct (probe_identity_a (usb denv) Hmatch)
    as (Hphase & Hq & Hint & Hmh & _ & _).
  rewrite usb_lifecycle_run.
  destruct (negb (tm_wheel_alloc_ok denv)); [repeat split |].
  cbv zeta.
  destruct (Z.eqb_spec (fst (thrustmaster_probe (usb denv) initial_state)) 0)
    as [Hr | Hr]; [| cbn [core]; repeat split; assumption].
  destruct (bound_state_holds (usb denv) n Hr) as (Hintf & _ & _).
  rewrite usb_disconnect_run by exact Hintf. rewrite disconnect_run.
  cbn [snd core trace in_flight].
  pose proof (completions_phase (usb denv) n _
                (probe_establishes_inv (usb denv))) as Hphase2.
  destruct (completions_tail (usb denv) n _ Hphase) as (t & Htrace & Ht).
  rewrite Htrace.
  assert (Hkill : filter is_query
                    (kill_log (in_flight
                       (snd (completions (usb denv) n
                          (snd (thrustmaster_probe (usb denv) initial_state))))))
                  = [] /\
                  interrupt_packets
                    (kill_log (in_flight
                       (snd (completions (usb denv) n
                          (snd (thrustmaster_probe (usb denv) initial_state))))))
                  = [] /\
                  filter from_model_handler
                    (kill_log (in_flight
                       (snd (completions (usb denv) n
                          (snd (thrustmaster_probe (usb denv) initial_state))))))
                  = []).
  { assert (Hp : (phase (snd (completions (usb denv) n
                      (snd (thrustmaster_probe (usb denv) initial_state))))
                  <= 1)%nat) by lia.
    unfold phase in Hp. unfold kill_log.
    destruct (in_flight _) as [u |]; [| repeat split].
    destruct (complete u); [lia | repeat split]. }
  destruct Hkill as (Hk1 & Hk2 & Hk3).
  assert (Htail : filter is_query t = [] /\ interrupt_packets t = [] /\
                  filter from_model_handler t = []).
  { destruct Ht as [-> | ->]; [repeat split |].
    unfold change_completion_event. destruct (_ || _); repeat split. }
  destruct Htail as (Ht1 & Ht2 & Ht3).
  unfold interrupt_packets in *.
  rewrite !filter_app, !flat_map_app.
  rewrite Hq, Hint, Hmh, Hk1, Hk2, Hk3, Ht1, Ht2, Ht3.
  repeat split.
Qed.

(** ** The further theorems at work *)

Example hid_t300rs_bound_and_removed :
  map snd (outer (snd (hid_lifecycle denv_t300rs 2 unbound)))
  = [kzalloc_tm_wheel; hid_parse 0; hid_hw_start 13 0; hid_set_drvdata;
     kfree_tm_wheel; hid_hw_stop] /\
  filter is_alloc_event
    (trace (core (snd (hid_lifecycle denv_t300rs 2 unbound))))
  = [Get res_usb_dev; Get res_urb; Get res_model_request; Get res_response;
     Get res_change_request; Get res_usb_intf; Get res_send_buf;
     Put res_send_buf; Put res_change_request; Put res_response;
     Put res_model_request; Put res_urb].
Proof. split; reflexivity. Qed.

Example hid_table_matches_t300rs :
  id_matches thrustmaster_hid_devices denv_t300rs = true /\
  id_matches thrustmaster_usb_devices denv_t300rs = false.
Proof. split; reflexivity. Qed.

Example hid_t300rs_removed_during_query :
  logged_at dev_err (trace (core (snd (hid_lifecycle denv_t300rs 0 unbound))))
  = [model_urb_failed (- ENOENT)] /\
  changes (trace (core (snd (hid_lifecycle denv_t300rs 0 unbound)))) = 0%nat.
Proof. split; reflexivity. Qed.

Lemma loops_exact_on_ordered_table_witness :
  Lookup.resolve (firstn 7 tm_wheels_infos) 7 x02 x06 = Some (4%nat, true).
Proof.
  apply (loops_exact_on_ordered_table (firstn 7 tm_wheels_infos) 4).
  - exact entries_before_t128_contiguous.
  - repeat constructor; simpl; intuition discriminate.
  - simpl. lia.
Defined.

Lemma attachment_found_iff_attachment_matches_witness :
  Lookup.resolve tm_wheels_infos 8 x02 x01 = Some (1%nat, false) /\
  (false = true <-> attachment (Lookup.at_index tm_wheels_infos 1) = x01).
Proof.
  split; [reflexivity |].
  apply (attachment_found_iff_attachment_matches tm_wheels_infos 8 x02 x01).
  reflexivity.
Defined.

Lemma switch_value_depends_on_model_only_witness :
  resolve x02 x09 = Some (5%nat, true) /\
  exists c : nat,
    candidate tm_wheels_infos x02 = Some c /\
    switch_value (entry 5) = switch_value (entry c).
Proof.
  split; [reflexivity |].
  apply (switch_value_depends_on_model_only x02 x09 5 true). reflexivity.
Defined.

Lemma submit_change_is_little_endian_witness :
  0 <= 0x0b05 < 65536 /\
  tw_change_request (wheel answered_one_byte) = Some change_request /\
  in_flight answered_one_byte = None /\
  switch_values_on_wire (host env_t128)
    (trace (snd (thrustmaster_submit_change env_t128 0x0b05 answered_one_byte)))
  = switch_values_on_wire (host env_t128) (trace answered_one_byte)
    ++ [(0x0b05 mod 256, 0x0b05 / 256)].
Proof.
  split; [lia |]. split; [reflexivity |]. split; [reflexivity |].
  apply (submit_change_is_little_endian env_t128 0x0b05 answered_one_byte
           change_request);
    [lia | reflexivity | reflexivity].
Defined.

Lemma short_answer_is_a_t500rs_witness :
  (List.length [x49] <= 6)%nat /\
  logged_at dev_info
    (trace (snd (thrustmaster_model_handler env_t300rs 0 answered_one_byte)))
  = logged_at dev_info (trace answered_one_byte)
    ++ [wheel_is x00 x00 "Thrustmaster T500RS" false].
Proof.
  split; [simpl; lia |].
  apply (short_answer_is_a_t500rs env_t300rs answered_one_byte [x49]
           change_request);
    [simpl; lia | left; reflexivity | reflexivity | reflexivity
    | reflexivity].
Defined.

Lemma probe_return_value_witness :
  fst (thrustmaster_probe env_t128 initial_state) = 0 /\
  idProduct env_t128 = (x9c, xb6) /\
  in_flight (snd (thrustmaster_probe env_t128 initial_state))
  = Some change_urb.
Proof.
  split; [reflexivity |]. split; [reflexivity |].
  apply (probe_return_value env_t128); reflexivity.
Defined.

Lemma probe_keeps_or_releases_everything_witness :
  fst (thrustmaster_probe env_t300rs initial_state) = 0 /\
  gets res_send_buf (trace (snd (thrustmaster_probe env_t300rs initial_state)))
  = puts res_send_buf
      (trace (snd (thrustmaster_probe env_t300rs initial_state))).
Proof.
  split; [reflexivity |].
  exact (proj1 (proj2 (probe_keeps_or_releases_everything env_t300rs)
                  eq_refl)).
Defined.

Lemma session_ends_after_two_completions_witness :
  (2 <= 5)%nat /\ in_flight (snd (session env_t300rs 5 initial_state)) = None.
Proof.
  split; [lia |].
  apply (session_ends_after_two_completions env_t300rs 5). lia.
Defined.

Lemma queried_wheel_is_switched_witness :
  idProduct env_t300rs <> (x9c, xb6) /\
  resolve x02 x06 = Some (4%nat, true) /\
  submissions (trace (snd (session env_t300rs 1 initial_state)))
  = [SubmitUrb model_urb (Some (model_request (host env_t300rs))) 0;
     SubmitUrb change_urb
       (Some (set_wValue
                (cpu_to_le16 (host env_t300rs) (switch_value (entry 4)))
                change_request)) 0].
Proof.
  assert (Hid : idProduct env_t300rs <> (x9c, xb6))
    by (intros H; discriminate H).
  split; [exact Hid |]. split; [reflexivity |].
  apply (queried_wheel_is_switched env_t300rs 0 x02 x06 4 true Hid);
    reflexivity.
Defined.

Lemma hid_driver_keeps_device_references_witness :
  fst (hid_lifecycle denv_t300rs 2 unbound) = 0 /\
  gets res_usb_dev (trace (core (snd (hid_lifecycle denv_t300rs 2 unbound))))
  = 1%nat.
Proof.
  split; [reflexivity |].
  exact (proj1 (proj1 (proj2 (proj2
           (hid_driver_keeps_device_references denv_t300rs 2))) eq_refl)).
Defined.

Lemma hid_probe_stops_at_first_failure_witness :
  tm_wheel_alloc_ok denv_t300rs = true /\ hid_parse_ret denv_t300rs = 0 /\
  hid_hw_start_ret denv_t300rs = 0 /\
  fst (thrustmaster_hid_probe denv_t300rs unbound)
  = fst (thrustmaster_probe (usb denv_t300rs) initial_state).
Proof.
  split; [reflexivity |]. split; [reflexivity |]. split; [reflexivity |].
  apply (hid_probe_stops_at_first_failure denv_t300rs); reflexivity.
Defined.

Lemma usb_driver_never_queries_witness :
  id_matches thrustmaster_usb_devices denv_t128 = true /\
  filter is_query (trace (core (snd (usb_lifecycle denv_t128 1 unbound)))) = [].
Proof.
  split; [reflexivity |].
  apply (usb_driver_never_queries denv_t128 1). reflexivity.
Defined.
